(** * nthscraper: a shallow embedding of the element wrapper, the document
      session and the requests wrapper

    Sources: [src/nthscraper/scraper.py] (classes [NthScraperElement] and
    [NthScraper]) and [src/zenscraper/wrapper/requests_wrapper.py] (class
    [RequestsWrapper]).

    Python values are modelled as follows.
    - [str] and [bytes] are [string]: sequences of code points below 256.
    - [int] is [Z].
    - a [dict] with string keys is a [gmap string _].
    - an exception is a class together with its message ([str(e)]).
    - [logger], [time.sleep], the network and the local file system act on an
      explicit [World], whose [trace] records every effect in program order.
    - lxml, requests and the absent module [nthscraper/by.py] are collaborators
      reached through the interfaces [XPathEngine], [AttributeNames],
      [Parser], [Network] and [Selector].
    - a call that passes [**kwargs] on binds them first: a keyword named
      like a parameter that is given already raises [TypeError] there. *)

From stdpp Require Import base option list strings gmap pretty.
From Stdlib Require Import ZArith Lia.

Set Warnings "-register-all".
Open Scope string_scope.
Open Scope list_scope.
Open Scope Z_scope.

(** ** Python strings *)

Module PyStr.

(** [str.isspace] on one character, for code points below 256: the ASCII
    white space of CPython ([\t \n \v \f \r], the separators 0x1C-0x1F and the
    blank) and the two Latin-1 ones, NEL (0x85) and NBSP (0xA0). *)
Definition isspace (c : Ascii.ascii) : bool :=
  let n := Ascii.nat_of_ascii c in
  (((9 <=? n) && (n <=? 13)) || ((28 <=? n) && (n <=? 32))
   || (n =? 133) || (n =? 160))%nat.

Fixpoint lstrip (s : string) : string :=
  match s with
  | EmptyString => EmptyString
  | String c s' => if isspace c then lstrip s' else s
  end.

Fixpoint rstrip (s : string) : string :=
  match s with
  | EmptyString => EmptyString
  | String c s' =>
      match rstrip s' with
      | EmptyString => if isspace c then EmptyString else String c EmptyString
      | r => String c r
      end
  end.

(** [s.strip()] *)
Definition strip (s : string) : string := rstrip (lstrip s).

(** [s.startswith(p)] *)
Fixpoint startswith (p s : string) : bool :=
  match p, s with
  | EmptyString, _ => true
  | String a p', String b s' => bool_decide (a = b) && startswith p' s'
  | String _ _, EmptyString => false
  end.

(** The scan of [s.replace(rep, "")] for a non-empty [rep]: left to right,
    an occurrence of [rep] at the current position is skipped whole ([skip]
    counts the characters of it still to drop), any other character is
    kept. *)
Fixpoint delete_scan (rep : string) (skip : nat) (s : string) : string :=
  match s with
  | EmptyString => EmptyString
  | String c s' =>
      match skip with
      | S k => delete_scan rep k s'
      | O =>
          if startswith rep s
          then delete_scan rep ((String.length rep - 1)%nat) s'
          else String c (delete_scan rep 0 s')
      end
  end.

(** [s.replace(rep, "")]. With an empty [rep] Python inserts the (empty)
    replacement between the characters, which leaves [s] as it is. *)
Definition replace_with_empty (s rep : string) : string :=
  match rep with
  | EmptyString => s
  | _ => delete_scan rep 0 s
  end.

(** ["".join(parts)] *)
Definition join_empty (parts : list string) : string :=
  foldr String.app EmptyString parts.

(** [bool(s)] *)
Definition truthy (s : string) : bool :=
  match s with EmptyString => false | _ => true end.

(** [s] without the character [c]. *)
Fixpoint without (c : Ascii.ascii) (s : string) : string :=
  match s with
  | EmptyString => EmptyString
  | String b s' =>
      if bool_decide (c = b) then without c s' else String b (without c s')
  end.

(** [s] is white space only. *)
Definition blank (s : string) : Prop := lstrip s = EmptyString.

Fixpoint last_char (s : string) : option Ascii.ascii :=
  match s with
  | EmptyString => None
  | String c EmptyString => Some c
  | String _ s' => last_char s'
  end.

End PyStr.

(** ** Exceptions and results *)

Inductive exn_class : Type :=
| ValueError
| ReferenceError
| NameError
| TypeError
| IndexError
| OverflowError
| HTTPError
| LibraryError (name : string).

Record exn : Type := Exn { exn_cls : exn_class; exn_msg : string }.

(** [str(e)] *)
Definition str_exn (e : exn) : string := exn_msg e.

Inductive result (A : Type) : Type :=
| Ok (a : A)
| Raise (e : exn).
Arguments Ok {A} a.
Arguments Raise {A} e.

#[global] Instance exn_class_eq_dec : EqDecision exn_class.
Proof. solve_decision. Defined.
#[global] Instance exn_eq_dec : EqDecision exn.
Proof. solve_decision. Defined.

(** ** The parsed tree *)

(** What lxml hands out as an [_Element]. An element proper has its [tag],
    its [attrib] mapping, the [text] before its first child, its children in
    document order, and the [tail] text that follows its end tag inside its
    parent. A comment and a processing instruction are [_Element]s too: they
    have a [text] (their content, never [None]) and a [tail], but neither
    attributes nor children. *)
Inductive element : Type :=
| Element (tag : string) (attrib : gmap string string)
          (text : option string) (children : list element)
          (tail : option string)
| Comment (text : string) (tail : option string)
| ProcessingInstruction (target text : string) (tail : option string).

(** [e.tag]: a name, or for a comment and a processing instruction the
    factory function of lxml that stands for their kind. *)
Inductive py_tag : Type :=
| TagName (name : string)
| TagComment
| TagProcessingInstruction.

Definition is_element (e : element) : bool :=
  match e with Element _ _ _ _ _ => true | _ => false end.

Definition el_tag (e : element) : py_tag :=
  match e with
  | Element t _ _ _ _ => TagName t
  | Comment _ _ => TagComment
  | ProcessingInstruction _ _ _ => TagProcessingInstruction
  end.
Definition el_attrib (e : element) : gmap string string :=
  match e with Element _ a _ _ _ => a | _ => ∅ end.
Definition el_text (e : element) : option string :=
  match e with
  | Element _ _ t _ _ => t
  | Comment t _ | ProcessingInstruction _ t _ => Some t
  end.
Definition el_children (e : element) : list element :=
  match e with Element _ _ _ c _ => c | _ => [] end.
Definition el_tail (e : element) : option string :=
  match e with
  | Element _ _ _ _ t | Comment _ t | ProcessingInstruction _ _ t => t
  end.

(** [len(e)]: the number of children. *)
Definition el_len (e : element) : nat := length (el_children e).

(** [bool(e)] for an element: lxml answers whether it has children. *)
Definition el_truthy (e : element) : bool :=
  match el_children e with [] => false | _ => true end.

Definition opt_list {A} (o : option A) : list A :=
  match o with Some a => [a] | None => [] end.

(** [e.itertext()]. On an element: its [text], then for each child in order
    what the child contributes followed by the child's [tail]; a child element
    contributes its own [itertext()], a comment or processing instruction
    nothing. The tail of [e] itself is not part of it. On a comment or a
    processing instruction it yields nothing. *)
Fixpoint itertext (e : element) : list string :=
  match e with
  | Element _ _ txt kids _ =>
      opt_list txt ++
      (fix over (l : list element) : list string :=
         match l with
         | [] => []
         | c :: l' => (itertext c ++ opt_list (el_tail c)) ++ over l'
         end) kids
  | Comment _ _ | ProcessingInstruction _ _ _ => []
  end.


(** A reference to one element of a parsed tree: the element itself ([here])
    and the path of enclosing elements up to the root ([above], nearest
    first). Each [frame] keeps what the enclosing element has besides the
    element in focus: the siblings before it (nearest first) and after it. *)
Record frame : Type := Frame {
  fr_tag : string;
  fr_attrib : gmap string string;
  fr_text : option string;
  fr_before : list element;
  fr_after : list element;
  fr_tail : option string
}.

Record node : Type := Node { here : element; above : list frame }.

(** [e.getparent()] *)
Definition getparent (n : node) : option node :=
  match above n with
  | [] => None
  | f :: up =>
      Some (Node (Element (fr_tag f) (fr_attrib f) (fr_text f)
                    (rev_append (fr_before f) (here n :: fr_after f))
                    (fr_tail f))
                 up)
  end.

(** What an XPath evaluation hands back. A node-set is a list whose items are
    elements or, for [text()] and attribute steps, strings; an expression may
    also evaluate to a string, a number or a boolean. Of a number the code
    only ever observes whether it is zero. *)
Inductive xpath_item : Type :=
| XElement (n : node)
| XText (s : string).

Inductive xpath_value : Type :=
| XNodes (items : list xpath_item)
| XString (s : string)
| XNumber (nonzero : bool)
| XBoolean (b : bool).

(** [bool(v)] *)
Definition xpath_truthy (v : xpath_value) : bool :=
  match v with
  | XNodes [] => false
  | XNodes (_ :: _) => true
  | XString s => PyStr.truthy s
  | XNumber nz => nz
  | XBoolean b => b
  end.

Fixpoint chars (s : string) : list xpath_item :=
  match s with
  | EmptyString => []
  | String c s' => XText (String c EmptyString) :: chars s'
  end.

(** [iter(v)], as a [for] clause consumes it. *)
Definition xpath_iter (v : xpath_value) : result (list xpath_item) :=
  match v with
  | XNodes l => Ok l
  | XString s => Ok (chars s)
  | XNumber _ => Raise (Exn TypeError "'float' object is not iterable")
  | XBoolean _ => Raise (Exn TypeError "'bool' object is not iterable")
  end.

(** [v[0]] *)
Definition xpath_first (v : xpath_value) : result xpath_item :=
  match v with
  | XNodes (x :: _) => Ok x
  | XNodes [] => Raise (Exn IndexError "list index out of range")
  | XString (String c _) => Ok (XText (String c EmptyString))
  | XString EmptyString => Raise (Exn IndexError "string index out of range")
  | XNumber _ => Raise (Exn TypeError "'float' object is not subscriptable")
  | XBoolean _ => Raise (Exn TypeError "'bool' object is not subscriptable")
  end.

(** ** Effects *)

Inductive level : Type := INFO | ERROR.

Inductive event : Type :=
| EvLog (lvl : level) (msg : string)
| EvSleep (seconds : Z)
| EvRequest (method url : string) (headers : gmap string string)
| EvSessionOpen
| EvLocalGet (url : string)
| EvResponseClose (url : string).

(** The world outside the objects: the effects so far, oldest first, and the
    number of values already drawn from the module-level random generator. *)
Record World : Type := { trace : list event; draws : nat }.

Definition emit_to (ev : event) (w : World) : World :=
  {| trace := trace w ++ [ev]; draws := draws w |}.

(** A computation over a state [S] that returns or raises. *)
Definition M (S A : Type) : Type := S -> result A * S.

Definition ret {S A} (a : A) : M S A := fun s => (Ok a, s).

Definition raise {S A} (e : exn) : M S A := fun s => (Raise e, s).

Definition bind {S A B} (m : M S A) (k : A -> M S B) : M S B :=
  fun s =>
    match m s with
    | (Ok a, s') => k a s'
    | (Raise e, s') => (Raise e, s')
    end.

(** [try: body except Exception as e: handler]. What [body] did to the state
    before it raised stays done. *)
Definition try_except {S A} (body : M S A) (handler : exn -> M S A) : M S A :=
  fun s =>
    match body s with
    | (Ok a, s') => (Ok a, s')
    | (Raise e, s') => handler e s'
    end.

Definition lift {S A} (r : result A) : M S A := fun s => (r, s).

Definition gets {S A} (f : S -> A) : M S A := fun s => (Ok (f s), s).

Definition modify {S} (f : S -> S) : M S unit := fun s => (Ok tt, f s).

Declare Scope py_scope.
Delimit Scope py_scope with py.
Notation "x <- c1 ;; c2" := (bind c1 (fun x => c2))
  (at level 20, c1 at level 99, c2 at level 200, only parsing) : py_scope.
Notation "' pat <- c1 ;; c2" :=
  (bind c1 (fun x => match x with pat => c2 end))
  (at level 20, pat pattern, c1 at level 99, c2 at level 200, only parsing)
  : py_scope.
Notation "c1 ;; c2" := (bind c1 (fun _ => c2))
  (at level 100, c2 at level 200, only parsing, right associativity)
  : py_scope.
Open Scope py_scope.

(** Run a computation on the second component of a pair of states. *)
Definition in_world {X A} (m : M World A) : M (X * World) A :=
  fun s =>
    let '(r, w') := m (snd s) in (r, (fst s, w')).

Definition emit (ev : event) : M World unit := modify (emit_to ev).

(** [logger.error(msg)] and [logger.info(msg)] *)
Definition logger_error (msg : string) : M World unit := emit (EvLog ERROR msg).
Definition logger_info (msg : string) : M World unit := emit (EvLog INFO msg).

(** Reading a name that is bound nowhere. *)
Definition unbound_name {S A} (name : string) : M S A :=
  raise (Exn NameError ("name '" +:+ name +:+ "' is not defined")).

(** [[f(x) for x in l]]: stops at the first [f(x)] that raises. *)
Fixpoint comprehension {A B} (f : A -> result B) (l : list A) : result (list B) :=
  match l with
  | [] => Ok []
  | x :: l' =>
      match f x with
      | Raise e => Raise e
      | Ok y =>
          match comprehension f l' with
          | Raise e => Raise e
          | Ok ys => Ok (y :: ys)
          end
      end
  end.

(** ** Collaborators *)

(** [nthscraper/by.py] is not among the sources. Its [selector_mode_values]
    is taken as given: from a mode, the text to search and a tag scope
    ([None] when the caller leaves the scope to the function's default) it
    returns the error label and the XPath query, or raises. *)
Class Selector : Type := {
  By : Type;
  selector_mode_values : By -> string -> option string -> result (string * string)
}.

(** [element.xpath(query)] of lxml, evaluated with the referenced element as
    context node. *)
Class XPathEngine : Type := {
  xpath : node -> string -> result xpath_value
}.

(** How lxml reads the name given to [element.get]: the key of [attrib] the
    name stands for (a plain name stands for itself), or the [ValueError] lxml
    raises for a name it refuses, such as the empty name. *)
Class AttributeNames : Type := {
  attribute_key : string -> result string
}.

(** [lxml.html.fromstring] and [lxml.etree.tostring(_, encoding="unicode",
    method="html")]. *)
Class Parser : Type := {
  fromstring : string -> result node;
  tostring : node -> string
}.

(** [e.get(name)]: on an element the name is read first, then looked up; a
    comment and a processing instruction answer [None] to every name. *)
Definition element_get `{AttributeNames} (e : element) (name : string)
    : result (option string) :=
  match e with
  | Element _ at_ _ _ _ =>
      match attribute_key name with
      | Ok key => Ok (at_ !! key)
      | Raise err => Raise err
      end
  | Comment _ _ | ProcessingInstruction _ _ _ => Ok None
  end.

(** ** class NthScraperElement *)

Definition LF : string := String (Ascii.ascii_of_nat 10) EmptyString.
Definition TAB : string := String (Ascii.ascii_of_nat 9) EmptyString.

Module NthScraperElement.

Record t : Type := Build { element : node }.

(** [NthScraperElement(obj)]: only an lxml element is accepted. *)
Definition __init__ (obj : xpath_item) : result t :=
  match obj with
  | XElement n => Ok (Build n)
  | XText _ => Raise (Exn ValueError "Expected an lxml.etree._Element instance.")
  end.

Definition tag_default : string := "node()".
Definition inner_text_filter_default : list string := [LF; TAB].

Section Methods.
Context `{Selector} `{XPathEngine} `{Parser} `{AttributeNames}.

(** The handler of [find_elements] is [except Exception:], without [as e],
    and then reads [e]. *)
Definition find_elements (self : t) (by_mode : By) (to_search : string)
    (tag : string) : M World (list t) :=
  '(err_message, xp) <- lift (selector_mode_values by_mode to_search (Some tag)) ;;
  try_except
    (elements <- lift (xpath (element self) xp) ;;
     if xpath_truthy elements
     then (items <- lift (xpath_iter elements) ;;
           lift (comprehension __init__ items))
     else ret [])
    (fun _ =>
       e <- unbound_name "e" ;;
       logger_error (err_message +:+ ": " +:+ str_exn e) ;;
       ret []).

Definition find_element (self : t) (by_mode : By) (to_search : string)
    : M World t :=
  '(_, xp) <- lift (selector_mode_values by_mode to_search None) ;;
  elem <- try_except
            (elements <- lift (xpath (element self) xp) ;;
             lift (xpath_first elements))
            (fun _ => raise (Exn ValueError "Failed to find element.")) ;;
  lift (__init__ elem).

Definition get_text (self : t) (all_text_content : bool) : string :=
  if all_text_content
  then PyStr.join_empty (itertext (here (element self)))
  else match el_text (here (element self)) with
       | Some s => s
       | None => ""
       end.

Definition get_tag_name (self : t) : py_tag := el_tag (here (element self)).

Definition get_attribute (self : t) (attribute : string)
    (inner_text_filter : list string) : result string :=
  if bool_decide (attribute = "innerText") then
    let text := get_text self true in
    let text := foldl PyStr.replace_with_empty text inner_text_filter in
    Ok (PyStr.strip text)
  else if bool_decide (attribute = "innerHTML") then
    Ok (tostring (element self))
  else
    match element_get (here (element self)) attribute with
    | Raise e => Raise e
    | Ok None => Raise (Exn ValueError ("Error accessing the attribute " +:+ attribute))
    | Ok (Some attr_value) => Ok attr_value
    end.

Definition get_parent (self : t) : option t :=
  match getparent (element self) with
  | Some parent => Some (Build parent)
  | None => None
  end.

End Methods.

End NthScraperElement.

(** ** requests and the random generator *)

(** A [requests.Response] whose body has been read, as it is when a request
    made without [stream=True] returns: [content] is that body. *)
Record Response : Type := {
  status_code : Z;
  reason : string;
  url : string;
  content : string;
  closed : bool
}.

(** A [requests.Session]: its header defaults. *)
Record Session : Type := { session_headers : gmap string string }.

(** The outside of the program: the raw values the random generator will
    produce, the headers a new [requests.Session] starts with, and what the
    network and the file adapter answer, given the effects so far. *)
Class Network : Type := {
  entropy : nat -> Z;
  default_session_headers : gmap string string;
  session_request :
    list event -> Session -> string -> string -> gmap string string ->
    gmap string string -> result Response;
  local_file_send : list event -> Session -> string -> result Response
}.

(** The least magnitude of an integer that [float] refuses: half way from
    the largest double to [2^1024]. *)
Definition float_limit : Z := 2 ^ 1024 - 2 ^ 970.

(** The longest sleep, in whole seconds, whose nanoseconds are below [2^63]. *)
Definition sleep_limit : Z := 9223372036.

(** The first of the parameter names [names] that is also a key of the
    keywords [rest]. *)
Fixpoint first_clash (names : list string) (rest : gmap string string)
    : option string :=
  match names with
  | [] => None
  | name :: names' =>
      match rest !! name with
      | Some _ => Some name
      | None => first_clash names' rest
      end
  end.

(** Binding [**rest] in a call of [callee] whose parameters [names] are
    already given: a keyword of the same name makes the call raise, before the
    body of [callee] runs. *)
Definition bind_keywords {S} (callee : string) (names : list string)
    (rest : gmap string string) : M S unit :=
  match first_clash names rest with
  | Some name =>
      raise (Exn TypeError (callee +:+ "() got multiple values for argument '"
                            +:+ name +:+ "'"))
  | None => ret tt
  end.

Section Library.
Context `{Network}.

(** [random.randrange(a, b)] for [a < b]: a value in [a, b). *)
Definition randrange (a b : Z) : M World Z :=
  fun w =>
    (Ok (a + entropy (draws w) mod (b - a)),
     {| trace := trace w; draws := S (draws w) |}).

(** [random.randint(a, b)]: a value in [a, b]. *)
Definition randint (a b : Z) : M World Z := randrange a (b + 1).

(** [time.sleep(float(seconds))] for an integer, as CPython has it. [float]
    refuses an integer that rounds beyond the largest double; [time.sleep]
    turns the seconds into nanoseconds on 64 bits and refuses what does not
    fit, before it refuses a negative length. *)
Definition time_sleep (seconds : Z) : M World unit :=
  if float_limit <=? Z.abs seconds
  then raise (Exn OverflowError "int too large to convert to float")
  else if sleep_limit <? Z.abs seconds
  then raise (Exn OverflowError "timestamp too large to convert to C _PyTime_t")
  else if seconds <? 0
  then raise (Exn ValueError "sleep length must be non-negative")
  else emit (EvSleep seconds).

(** [requests.session()] *)
Definition requests_session : M World Session :=
  emit EvSessionOpen ;;
  ret {| session_headers := default_session_headers |}.

(** [resp.raise_for_status()] *)
Definition raise_for_status (resp : Response) : result unit :=
  if (400 <=? status_code resp) && (status_code resp <? 500) then
    Raise (Exn HTTPError (pretty (status_code resp) +:+ " Client Error: "
                          +:+ reason resp +:+ " for url: " +:+ url resp))
  else if (500 <=? status_code resp) && (status_code resp <? 600) then
    Raise (Exn HTTPError (pretty (status_code resp) +:+ " Server Error: "
                          +:+ reason resp +:+ " for url: " +:+ url resp))
  else Ok tt.

End Library.

(** ** class RequestsWrapper *)

Module RequestsWrapper.

(** The keyword arguments of a request: [sleep_seconds] and [headers] when
    the caller passes them, and whatever else goes on to requests. In the
    body of a method they are the keywords as bound: the method's own
    parameters are not among the keys of [kw_rest]. *)
Record Kwargs : Type := {
  kw_sleep_seconds : option Z;
  kw_headers : option (gmap string string);
  kw_rest : gmap string string
}.

Definition no_kwargs : Kwargs :=
  {| kw_sleep_seconds := None; kw_headers := None; kw_rest := ∅ |}.

(** An instance: its session, and [web_hit_count] once the instance has an
    attribute of that name of its own. Until then reading
    [self.web_hit_count] finds the class attribute. *)
Record t : Type := {
  session : Session;
  web_hit_count : option Z
}.

(** The class attributes. *)
Definition class_web_hit_count : Z := 0.
Definition headers : gmap string string :=
  {[ "User-Agent" := "Mozilla/5.0 (Macintosh; Intel Mac OS X 10_11_5) AppleWebKit/537.36 (KHTML, like Gecko) Chrome/50.0.2661.102 Safari/537.36" ]}.

(** [self.web_hit_count] *)
Definition get_hit_count (self : t) : Z :=
  match web_hit_count self with
  | Some n => n
  | None => class_web_hit_count
  end.

(** [self.web_hit_count += 1] *)
Definition count_hit (self : t) : t :=
  {| session := session self; web_hit_count := Some (get_hit_count self + 1) |}.

Section Methods.
Context `{Network}.

Definition __init__ (kwargs : gmap string string) : t :=
  {| session := {| session_headers := kwargs ∪ default_session_headers |};
     web_hit_count := None |}.

(** [self.session.request(method, url, headers=headers, **kwargs)] *)
Definition send (method url : string) (hdrs rest : gmap string string)
    : M (t * World) Response :=
  fun s =>
    (session_request (trace (snd s)) (session (fst s)) method url hdrs rest,
     (fst s, emit_to (EvRequest method url hdrs) (snd s))).

Definition request (method url : string) (kwargs : Kwargs)
    : M (t * World) Response :=
  fallback <- in_world (randrange 1 4) ;;
  let sleep_seconds :=
    match kw_sleep_seconds kwargs with Some s => s | None => fallback end in
  in_world (time_sleep sleep_seconds) ;;
  let hdrs :=
    match kw_headers kwargs with Some h => h | None => ∅ end ∪ headers in
  modify (fun s => (count_hit (fst s), snd s)) ;;
  resp <- send method url hdrs (kw_rest kwargs) ;;
  lift (raise_for_status resp) ;;
  ret resp.

(** [self.request(method, url, **kwargs)], as [get] and [post] call it:
    the keywords are bound first. *)
Definition call_request (method url : string) (kwargs : Kwargs)
    : M (t * World) Response :=
  bind_keywords "RequestsWrapper.request" ["self"; "method"; "url"]
    (kw_rest kwargs) ;;
  request method url kwargs.

Definition get (url : string) (kwargs : Kwargs) : M (t * World) Response :=
  call_request "GET" url kwargs.

Definition post (url : string) (kwargs : Kwargs) : M (t * World) Response :=
  call_request "POST" url kwargs.

End Methods.

End RequestsWrapper.

(** ** class NthScraper *)

(** [scraper.py] imports its wrapper from [nthscraper.wrapper]; the class
    meant is the [RequestsWrapper] above, the one wrapper among the sources. *)

Module NthScraper.

Record t : Type := {
  requests_wrapper : RequestsWrapper.t;
  doc : option node;
  response : option Response
}.

Definition set_response (r : option Response) (self : t) : t :=
  {| requests_wrapper := requests_wrapper self; doc := doc self; response := r |}.

Definition set_doc (d : option node) (self : t) : t :=
  {| requests_wrapper := requests_wrapper self; doc := d; response := response self |}.

(** Run a method of [self.requests_wrapper]. *)
Definition on_wrapper {A} (m : M (RequestsWrapper.t * World) A)
    : M (t * World) A :=
  fun s =>
    let '(r, (rw, w)) := m (requests_wrapper (fst s), snd s) in
    (r, ({| requests_wrapper := rw; doc := doc (fst s);
            response := response (fst s) |}, w)).

Definition update (f : t -> t) : M (t * World) unit :=
  modify (fun s => (f (fst s), snd s)).

(** The keyword arguments of [get] and [post]: [is_post] when the caller
    passes it, and those that go on to the wrapper. *)
Record Keywords : Type := {
  kw_is_post : option bool;
  kw_wrapper : RequestsWrapper.Kwargs
}.

Definition no_keywords : Keywords :=
  {| kw_is_post := None; kw_wrapper := RequestsWrapper.no_kwargs |}.

(** [bool(doc)] for [doc : Optional[HtmlElement]] *)
Definition doc_truthy (d : option node) : bool :=
  match d with
  | None => false
  | Some n => el_truthy (here n)
  end.

Section Methods.
Context `{Selector} `{XPathEngine} `{Parser} `{Network}.

Definition __init__ : t :=
  {| requests_wrapper := RequestsWrapper.__init__ ∅;
     doc := None;
     response := None |}.

(** [html.fromstring(content) if content else None] *)
Definition parse_content {S} (body : string) : M S (option node) :=
  if PyStr.truthy body
  then (root <- lift (fromstring body) ;; ret (Some root))
  else ret None.

Definition _get_response (target : string) (sleep_seconds : option Z)
    (is_post : bool) (kwargs : RequestsWrapper.Kwargs)
    : M (t * World) Response :=
  sleep_seconds <- match sleep_seconds with
                   | Some s => ret s
                   | None => in_world (randint 1 5)
                   end ;;
  let method := if is_post then RequestsWrapper.post else RequestsWrapper.get in
  resp <- on_wrapper
            (method target
               {| RequestsWrapper.kw_sleep_seconds := Some sleep_seconds;
                  RequestsWrapper.kw_headers := RequestsWrapper.kw_headers kwargs;
                  RequestsWrapper.kw_rest := RequestsWrapper.kw_rest kwargs |}) ;;
  update (set_response (Some resp)) ;;
  d <- parse_content (content resp) ;;
  update (set_doc d) ;;
  ret resp.

(** [get(url, sleep_seconds, **kwargs)]: the keywords are bound, then the
    body calls [self._get_response(url, sleep_seconds, **kwargs)], where a
    keyword [is_post] binds to the parameter of that name, which is [False]
    otherwise. *)
Definition get (target : string) (sleep_seconds : option Z)
    (kwargs : Keywords) : M (t * World) Response :=
  bind_keywords "NthScraper.get" ["self"; "url"; "sleep_seconds"]
    (RequestsWrapper.kw_rest (kw_wrapper kwargs)) ;;
  _get_response target sleep_seconds
    (match kw_is_post kwargs with Some b => b | None => false end)
    (kw_wrapper kwargs).

(** [post(url, sleep_seconds, **kwargs)]: the keywords are bound, then the
    body calls [self._get_response(url, sleep_seconds, is_post=True,
    **kwargs)], where a keyword [is_post] among [kwargs] is a second value for
    the one the call spells out. *)
Definition post (target : string) (sleep_seconds : option Z)
    (kwargs : Keywords) : M (t * World) Response :=
  bind_keywords "NthScraper.post" ["self"; "url"; "sleep_seconds"]
    (RequestsWrapper.kw_rest (kw_wrapper kwargs)) ;;
  match kw_is_post kwargs with
  | Some _ =>
      raise (Exn TypeError
               "nthscraper.scraper.NthScraper._get_response() got multiple values for keyword argument 'is_post'")
  | None => _get_response target sleep_seconds true (kw_wrapper kwargs)
  end.

(** [self.response.close()]; the response returned afterwards is that same
    object. *)
Definition close_response (resp : Response) : M (t * World) Response :=
  let resp' := {| status_code := status_code resp; reason := reason resp;
                  url := url resp; content := content resp; closed := true |} in
  update (set_response (Some resp')) ;;
  in_world (emit (EvResponseClose (url resp))) ;;
  ret resp'.

(** [session.get(url)] on a session with [LocalFileAdapter] mounted. *)
Definition local_get (session : Session) (target : string)
    : M World Response :=
  fun w =>
    (local_file_send (trace w) session target, emit_to (EvLocalGet target) w).

Definition get_from_local (file_path : string) : M (t * World) Response :=
  session <- in_world requests_session ;;
  resp <- in_world (local_get session ("file://" +:+ file_path)) ;;
  update (set_response (Some resp)) ;;
  in_world (logger_info ("Scraping data from: " +:+ file_path)) ;;
  d <- parse_content (content resp) ;;
  update (set_doc d) ;;
  close_response resp.

(** [doc if doc else self.doc] *)
Definition pick_doc (self : t) (d : option node) : option node :=
  if doc_truthy d then d else doc self.

Definition find_elements (self : t) (by_mode : By) (to_search : string)
    (d : option node) (tag : string) : M World (list NthScraperElement.t) :=
  '(err_message, xp) <- lift (selector_mode_values by_mode to_search (Some tag)) ;;
  match pick_doc self d with
  | None =>
      logger_error "Document is not loaded properly for xpath operations." ;;
      ret []
  | Some root =>
      if (el_len (here root) =? 0)%nat then
        logger_error "Document is not loaded properly for xpath operations." ;;
        ret []
      else
        try_except
          (elements <- lift (xpath root xp) ;;
           if xpath_truthy elements
           then (items <- lift (xpath_iter elements) ;;
                 lift (comprehension NthScraperElement.__init__ items))
           else ret [])
          (fun e =>
             logger_error (err_message +:+ ": " +:+ str_exn e) ;;
             ret [])
  end.

Definition not_loaded : exn :=
  Exn ReferenceError "HTML Document is not a valid lxml object".

Definition find_element (self : t) (by_mode : By) (to_search : string)
    (d : option node) (tag : string) : M World NthScraperElement.t :=
  '(err_message, xp) <- lift (selector_mode_values by_mode to_search (Some tag)) ;;
  match pick_doc self d with
  | None => raise not_loaded
  | Some root =>
      if (el_len (here root) =? 0)%nat then raise not_loaded
      else
        try_except
          (elements <- lift (xpath root xp) ;;
           elem <- lift (xpath_first elements) ;;
           lift (NthScraperElement.__init__ elem))
          (fun _ => raise (Exn ValueError "Failed to find Element"))
  end.

End Methods.

End NthScraper.

(** ** The failures of the spec, as the code raises them *)

(** The code raises [ValueError] for the spec's NotFoundError,
    AttributeNotFoundError and InvalidElementError alike; the message tells
    them apart. *)
Definition AttributeNotFoundError (attribute : string) : exn :=
  Exn ValueError ("Error accessing the attribute " +:+ attribute).
Definition NotFoundError_in_element : exn :=
  Exn ValueError "Failed to find element.".
Definition NotFoundError_in_document : exn :=
  Exn ValueError "Failed to find Element".
Definition InvalidElementError : exn :=
  Exn ValueError "Expected an lxml.etree._Element instance.".

(** ** The document-order reading of a tree *)







(** ** The run of a sequence of transport calls *)

Inductive call : Type :=
| CallRequest (method target : string) (kwargs : RequestsWrapper.Kwargs)
| CallGet (target : string) (kwargs : RequestsWrapper.Kwargs)
| CallPost (target : string) (kwargs : RequestsWrapper.Kwargs).


Section Calls.
Context `{Network}.

(** A call made from outside, [wrapper.request(method, url, **kwargs)] and
    the like: the keywords are bound to the method called, then its body
    runs. *)
Definition perform (c : call) : M (RequestsWrapper.t * World) Response :=
  match c with
  | CallRequest m u k => RequestsWrapper.call_request m u k
  | CallGet u k =>
      bind_keywords "RequestsWrapper.get" ["self"; "url"]
        (RequestsWrapper.kw_rest k) ;;
      RequestsWrapper.get u k
  | CallPost u k =>
      bind_keywords "RequestsWrapper.post" ["self"; "url"]
        (RequestsWrapper.kw_rest k) ;;
      RequestsWrapper.post u k
  end.


End Calls.

(** A throttle [time.sleep] accepts: not negative and short enough for its
    nanoseconds to fit; an absent one, for which the random fallback is
    used, is accepted too. *)
Definition sleep_length_accepted (s : Z) : Prop := 0 <= s <= sleep_limit.

Definition throttle_accepted (k : RequestsWrapper.Kwargs) : Prop :=
  match RequestsWrapper.kw_sleep_seconds k with
  | Some s => sleep_length_accepted s
  | None => True
  end.

(** The keywords of a call bind: none of them is named like a parameter that
    [request] is given by position. *)
Definition keywords_bind (k : RequestsWrapper.Kwargs) : Prop :=
  first_clash ["self"; "method"; "url"] (RequestsWrapper.kw_rest k) = None.


(** What the document-scope [find_elements] logs when it has no tree to
    search. *)
Definition not_loaded_log : event :=
  EvLog ERROR "Document is not loaded properly for xpath operations.".

(** ** Properties as the spec words them *)

Section Worded.
Context `{Selector} `{XPathEngine} `{Network} `{Parser} `{AttributeNames}.


(** [get_attribute] on a name that is not reserved, as worded: the stored
    value when the node has the attribute, AttributeNotFoundError when it has
    not. *)
Definition value_or_not_found (self : NthScraperElement.t)
    (attribute : string) (filters : list string) : Prop :=
  NthScraperElement.get_attribute self attribute filters
  = match el_attrib (here (NthScraperElement.element self)) !! attribute with
    | Some v => Ok v
    | None => Raise (AttributeNotFoundError attribute)
    end.

(** [find_element] on an element, as worded: one handle on the first match
    in document order, and NotFoundError when the query matches nothing or its
    execution raises. *)
Definition finds_first_or_not_found (self : NthScraperElement.t)
    (by_mode : By) (to_search : string) (w : World) : Prop :=
  forall label xp,
    selector_mode_values by_mode to_search None = Ok (label, xp) ->
    match xpath (NthScraperElement.element self) xp with
    | Ok (XNodes (first :: _)) =>
        exists h,
          NthScraperElement.find_element self by_mode to_search w = (Ok h, w)
          /\ first = XElement (NthScraperElement.element h)
    | Ok (XNodes []) | Raise _ =>
        NthScraperElement.find_element self by_mode to_search w
        = (Raise NotFoundError_in_element, w)
    | Ok _ => True
    end.


End Worded.

(** [list(e)]: references to the children of the referenced element. *)
Fixpoint children_from (up : list frame) (tg : string)
    (at_ : gmap string string) (txt tl : option string)
    (before l : list element) : list node :=
  match l with
  | [] => []
  | c :: after =>
      Node c (Frame tg at_ txt before after tl :: up)
      :: children_from up tg at_ txt tl (c :: before) after
  end.

Definition children_nodes (n : node) : list node :=
  match here n with
  | Element tg at_ txt kids tl => children_from (above n) tg at_ txt tl [] kids
  | Comment _ _ | ProcessingInstruction _ _ _ => []
  end.

(** ** Sample documents and collaborators *)

Module Demo.

(** The tree of [<html><body><p id='x'>Hi</p></body></html>]. *)
Definition p_elem : element :=
  Element "p" {[ "id" := "x" ]} (Some "Hi") [] None.
Definition body_elem : element := Element "body" ∅ None [p_elem] None.
Definition html_elem : element := Element "html" ∅ None [body_elem] None.

Definition html_node : node := Node html_elem [].
Definition body_node : node :=
  Node body_elem [Frame "html" ∅ None [] [] None].
Definition p_node : node :=
  Node p_elem [Frame "body" ∅ None [] [] None; Frame "html" ∅ None [] [] None].

Definition page_bytes : string := "<html><body><p id='x'>Hi</p></body></html>".


(** A [<pre>] whose text is blank, line feed, [a], tab, [b], blank, line
    feed. *)
Definition padded_text : string := " " +:+ LF +:+ "a" +:+ TAB +:+ "b " +:+ LF.
Definition padded : NthScraperElement.t :=
  NthScraperElement.Build (Node (Element "pre" ∅ (Some padded_text) [] None) []).

(** A root element without children, as [<p>Hi</p>] alone parses to. *)
Definition lone_p : node := Node (Element "p" ∅ (Some "Hi") [] None) [].

(** The tree of [<p>A<!--c-->B</p>]: a handle on the paragraph, and one on
    its comment, as a query for [//comment()] gives. *)
Definition remark_elem : element :=
  Element "p" ∅ (Some "A") [Comment "c" (Some "B")] None.
Definition remarked : NthScraperElement.t :=
  NthScraperElement.Build (Node remark_elem []).
Definition remark : NthScraperElement.t :=
  NthScraperElement.Build
    (Node (Comment "c" (Some "B")) [Frame "p" ∅ (Some "A") [] [] None]).

Inductive mode : Type := XPATH | ID | TAG_NAME | LINK_TEXT.

(** Modelled from the spec: [selector_mode_values] of the absent
    [nthscraper/by.py], for three modes of section 4.1. By XPath the pattern
    is the query, verbatim; by id the query matches the nodes of the tag scope
    whose [id] equals the pattern; by tag the query matches the nodes named by
    the pattern, whatever the scope. [LINK_TEXT] stands for a mode the
    translator does not support. The default scope is any node. *)
Definition translate (by_mode : mode) (to_search : string)
    (tag : option string) : result (string * string) :=
  let scope := match tag with Some t => t | None => "node()" end in
  match by_mode with
  | XPATH => Ok ("Error in XPATH", to_search)
  | ID => Ok ("Error in ID", "//" +:+ scope +:+ "[@id='" +:+ to_search +:+ "']")
  | TAG_NAME => Ok ("Error in TAG_NAME", "//" +:+ to_search)
  | LINK_TEXT => Raise (Exn ValueError "Unsupported selector mode: LINK_TEXT")
  end.

Definition selector : Selector :=
  {| By := mode; selector_mode_values := translate |}.

(** What lxml raises on an expression it cannot parse, and on a document
    without content. *)
Definition invalid_expression : exn :=
  Exn (LibraryError "XPathEvalError") "Invalid expression".

Definition document_is_empty : exn :=
  Exn (LibraryError "ParserError") "Document is empty".

(** An engine that knows a few absolute queries, with the answers lxml gives
    for them anywhere in the sample page, and rejects every other query the
    way lxml rejects an expression it cannot parse. *)
Definition evaluate (n : node) (query : string) : result xpath_value :=
  if bool_decide (query = "//p") then Ok (XNodes [XElement p_node])
  else if bool_decide (query = "//p[@id='x']") then Ok (XNodes [XElement p_node])
  else if bool_decide (query = "//p/text()") then Ok (XNodes [XText "Hi"])
  else if bool_decide (query = "//div") then Ok (XNodes [])
  else if bool_decide (query = "count(//p)") then Ok (XNumber true)
  else Raise invalid_expression.

Definition engine : XPathEngine := {| xpath := evaluate |}.

Definition QUOTE : string := String (Ascii.ascii_of_nat 34) EmptyString.

Definition serialize_attrib (at_ : gmap string string) : string :=
  foldr (fun kv acc => " " +:+ fst kv +:+ "=" +:+ QUOTE +:+ snd kv +:+ QUOTE +:+ acc)
        EmptyString (map_to_list at_).

Definition opt_text (o : option string) : string :=
  match o with Some s => s | None => EmptyString end.

(** A plain serializer: start tag with attributes, text, children, end tag,
    tail. *)
Fixpoint serialize (e : element) : string :=
  match e with
  | Element tg at_ txt kids tl =>
      "<" +:+ tg +:+ serialize_attrib at_ +:+ ">" +:+ opt_text txt +:+
      (fix over (l : list element) : string :=
         match l with
         | [] => EmptyString
         | c :: l' => serialize c +:+ over l'
         end) kids +:+
      "</" +:+ tg +:+ ">" +:+ opt_text tl
  | Comment c tl => "<!--" +:+ c +:+ "-->" +:+ opt_text tl
  | ProcessingInstruction target c tl =>
      "<?" +:+ target +:+ " " +:+ c +:+ "?>" +:+ opt_text tl
  end.

(** Names as lxml reads them. A name with a control character other than
    tab, line feed and carriage return is refused, and so is the empty name.
    A name that starts with a brace is in Clark notation, [{namespace}local]:
    the closing brace and a local part are required, and with an empty
    namespace the name stands for its local part. Any other name stands for
    itself. *)
Definition xml_char (c : Ascii.ascii) : bool :=
  let n := Ascii.nat_of_ascii c in
  (32 <=? n)%nat || (n =? 9)%nat || (n =? 10)%nat || (n =? 13)%nat.

Fixpoint xml_compatible (s : string) : bool :=
  match s with
  | EmptyString => true
  | String c s' => xml_char c && xml_compatible s'
  end.

Definition OPEN_BRACE : Ascii.ascii := Ascii.ascii_of_nat 123.
Definition CLOSE_BRACE : Ascii.ascii := Ascii.ascii_of_nat 125.

(** The part of [s] before its first closing brace, and the part after it. *)
Fixpoint split_at_brace (s : string) : option (string * string) :=
  match s with
  | EmptyString => None
  | String c s' =>
      if Ascii.eqb c CLOSE_BRACE then Some (EmptyString, s')
      else match split_at_brace s' with
           | Some (ns, local) => Some (String c ns, local)
           | None => None
           end
  end.

Definition read_name (name : string) : result string :=
  if negb (xml_compatible name) then
    Raise (Exn ValueError
             "All strings must be XML compatible: Unicode or ASCII, no NULL bytes or control characters")
  else
    match name with
    | EmptyString => Raise (Exn ValueError "Empty tag name")
    | String c rest =>
        if Ascii.eqb c OPEN_BRACE then
          match split_at_brace rest with
          | None => Raise (Exn ValueError "Invalid tag name")
          | Some (_, EmptyString) => Raise (Exn ValueError "Empty tag name")
          | Some (EmptyString, local) => Ok local
          | Some (_, _) => Ok name
          end
        else Ok name
    end.

Definition names : AttributeNames := {| attribute_key := read_name |}.

(** A parser that knows the sample page, refuses a body of white space only
    as lxml does, and wraps any other body in a [span] as text. *)
Definition parse (body : string) : result node :=
  if bool_decide (body = page_bytes) then Ok html_node
  else if bool_decide (PyStr.strip body = EmptyString)
  then Raise document_is_empty
  else Ok (Node (Element "span" ∅ (Some body) [] None) []).

Definition parser : Parser :=
  {| fromstring := parse;
     tostring := fun n => serialize (here n) |}.

Definition respond (code : Z) (why target body : string) : Response :=
  {| status_code := code; reason := why; url := target; content := body;
     closed := false |}.

(** A network with one site: a page, an empty answer, and 404 elsewhere; a
    file system with one page and one blank file. *)
Definition answer (history : list event) (s : Session)
    (method target : string) (hdrs rest : gmap string string)
    : result Response :=
  if bool_decide (target = "https://example.org/") then
    Ok (respond 200 "OK" target page_bytes)
  else if bool_decide (target = "https://example.org/empty") then
    Ok (respond 204 "No Content" target EmptyString)
  else Ok (respond 404 "Not Found" target "gone").

Definition read_file (history : list event) (s : Session)
    (target : string) : result Response :=
  if bool_decide (target = "file:///srv/page.html") then
    Ok (respond 200 "OK" target page_bytes)
  else if bool_decide (target = "file:///srv/blank.html") then
    Ok (respond 200 "OK" target " ")
  else Raise (Exn (LibraryError "ConnectionError") "No such file").

Definition network : Network :=
  {| entropy := fun k => Z.of_nat k;
     default_session_headers := {[ "Accept" := "*/*" ]};
     session_request := answer;
     local_file_send := read_file |}.

Definition quiet : World := {| trace := []; draws := 0 |}.

(** A session right after [NthScraper()], and one holding the childless
    root. *)
Definition fresh : NthScraper.t := @NthScraper.__init__ network.
Definition childless : NthScraper.t := NthScraper.set_doc (Some lone_p) fresh.
Definition loaded : NthScraper.t := NthScraper.set_doc (Some html_node) fresh.


Definition no_throttle : RequestsWrapper.Kwargs :=
  {| RequestsWrapper.kw_sleep_seconds := Some 0;
     RequestsWrapper.kw_headers := None;
     RequestsWrapper.kw_rest := ∅ |}.

(** Keyword arguments with a throttle of [10**10] seconds, and with a
    keyword named like a parameter of [request]. *)
Definition long_throttle : RequestsWrapper.Kwargs :=
  {| RequestsWrapper.kw_sleep_seconds := Some (10 ^ 10);
     RequestsWrapper.kw_headers := None;
     RequestsWrapper.kw_rest := ∅ |}.

Definition method_keyword : RequestsWrapper.Kwargs :=
  {| RequestsWrapper.kw_sleep_seconds := Some 0;
     RequestsWrapper.kw_headers := None;
     RequestsWrapper.kw_rest := {[ "method" := "POST" ]} |}.

End Demo.

(** ** Notions for the further properties *)

(** [c in s], for a character [c]. *)
Fixpoint occurs (c : Ascii.ascii) (s : string) : bool :=
  match s with
  | EmptyString => false
  | String b s' => bool_decide (c = b) || occurs c s'
  end.





(** The effects only the requests wrapper has: the throttle and the request. *)
Definition wrapper_event (ev : event) : bool :=
  match ev with
  | EvSleep _ | EvRequest _ _ _ => true
  | _ => false
  end.


(** More samples: a page whose paragraph is followed by loose text, so that a
    node-set can mix an element with a string, and responses of a network
    that redirects. *)
Module Samples.

Definition mixed_items : list xpath_item := [XElement Demo.p_node; XText "Hi"].

(** An engine that, besides the queries of [Demo.evaluate], knows the union
    of the paragraphs and their text. *)
Definition evaluate (n : node) (query : string) : result xpath_value :=
  if bool_decide (query = "//p | //p/text()") then Ok (XNodes mixed_items)
  else Demo.evaluate n query.

Definition engine : XPathEngine := {| xpath := evaluate |}.

(** The element [<div><p id='x'>Hi</p> and <b>more</b></div>], alone. *)
Definition div_elem : element :=
  Element "div" ∅ None
    [Demo.p_elem; Element "b" ∅ (Some "more") [] None] None.
Definition div_node : node := Node div_elem [].




(** A network that answers every request with a body of one blank. *)
Definition blank (history : list event) (s : Session) (method target : string)
    (hdrs rest : gmap string string) : result Response :=
  Ok (Demo.respond 200 "OK" target " ").

Definition blank_site : Network :=
  {| entropy := fun k => Z.of_nat k;
     default_session_headers := ∅;
     session_request := blank;
     local_file_send := Demo.read_file |}.


End Samples.

(** * Properties *)

(** ** Python strings *)

Section PyStrFacts.
Import PyStr.

Lemma str_app_cons (c : Ascii.ascii) (s t : string) :
  String c s +:+ t = String c (s +:+ t).
Proof. reflexivity. Qed.

Lemma str_app_nil (t : string) : EmptyString +:+ t = t.
Proof. reflexivity. Qed.

Lemma startswith_refl (p s : string) : startswith p (p +:+ s) = true.
Proof.
  induction p as [|a p IH]; simpl; [reflexivity|].
  rewrite IH, bool_decide_eq_true_2; reflexivity.
Qed.

Lemma delete_scan_skip (rep r s : string) :
  delete_scan rep (String.length r) (r +:+ s) = delete_scan rep 0 s.
Proof. induction r as [|a r IH]; simpl; [reflexivity | exact IH]. Qed.

(** The three equations of deleting every occurrence, left to right. *)
Lemma replace_with_empty_nil (rep : string) :
  replace_with_empty EmptyString rep = EmptyString.
Proof. destruct rep; reflexivity. Qed.

Lemma replace_with_empty_occurrence (rep s : string) :
  rep <> EmptyString ->
  replace_with_empty (rep +:+ s) rep = replace_with_empty s rep.
Proof.
  destruct rep as [|a r]; [congruence|]. intros _.
  unfold replace_with_empty.
  change (String a r +:+ s) with (String a (r +:+ s)).
  cbn [delete_scan].
  change (String a (r +:+ s)) with (String a r +:+ s).
  rewrite startswith_refl.
  cbn [String.length]. rewrite Nat.sub_1_r. cbn [Nat.pred].
  apply delete_scan_skip.
Qed.

Lemma replace_with_empty_keep (rep : string) (c : Ascii.ascii) (s : string) :
  startswith rep (String c s) = false ->
  replace_with_empty (String c s) rep = String c (replace_with_empty s rep).
Proof.
  destruct rep as [|a r]; [discriminate|]. intros Hno.
  unfold replace_with_empty. cbn [delete_scan]. rewrite Hno. reflexivity.
Qed.

(** Deleting a one-character string keeps exactly the other characters. *)
Lemma replace_with_empty_char (c : Ascii.ascii) (s : string) :
  replace_with_empty s (String c EmptyString) = without c s.
Proof.
  unfold replace_with_empty.
  induction s as [|b s IH]; [reflexivity|].
  cbn [delete_scan startswith without String.length].
  destruct (bool_decide (c = b)); simpl; rewrite ?IH; reflexivity.
Qed.

Lemma lstrip_split (s : string) :
  exists l, s = l +:+ lstrip s /\ blank l.
Proof.
  induction s as [|c s (l & Hl & Hb)].
  - exists EmptyString. split; reflexivity.
  - simpl. destruct (isspace c) eqn:Hc.
    + exists (String c l). split.
      * rewrite str_app_cons. f_equal. exact Hl.
      * unfold blank. simpl. rewrite Hc. exact Hb.
    + exists EmptyString. split; reflexivity.
Qed.

Lemma rstrip_split (s : string) :
  exists r, s = rstrip s +:+ r /\ blank r.
Proof.
  induction s as [|c s (r & Hr & Hb)].
  - exists EmptyString. split; reflexivity.
  - simpl. destruct (rstrip s) as [|d t] eqn:Hs.
    + destruct (isspace c) eqn:Hc.
      * exists (String c r). rewrite str_app_nil in *. subst s.
        split; [reflexivity|].
        unfold blank. simpl. rewrite Hc. exact Hb.
      * exists r. rewrite str_app_cons, !str_app_nil in *. subst s.
        split; [reflexivity | exact Hb].
    + exists r. split; [|exact Hb]. rewrite str_app_cons. f_equal. exact Hr.
Qed.

(** [strip] cuts a blank prefix and a blank suffix off, and nothing else. *)
Lemma strip_split (s : string) :
  exists l r, s = l +:+ strip s +:+ r /\ blank l /\ blank r.
Proof.
  destruct (lstrip_split s) as (l & Hl & Hbl).
  destruct (rstrip_split (lstrip s)) as (r & Hr & Hbr).
  exists l, r. unfold strip. rewrite <- Hr. auto.
Qed.

Lemma lstrip_head (s : string) (c : Ascii.ascii) (t : string) :
  lstrip s = String c t -> isspace c = false.
Proof.
  induction s as [|b s IH]; simpl; [discriminate|].
  destruct (isspace b) eqn:Hb; [exact IH|].
  intros [= -> _]. exact Hb.
Qed.

Lemma rstrip_head (s : string) (c : Ascii.ascii) (t : string) :
  s = String c t -> isspace c = false -> exists t', rstrip s = String c t'.
Proof.
  intros -> Hc. simpl. destruct (rstrip t); rewrite ?Hc; eauto.
Qed.

(** What [strip] returns does not begin with white space. *)
Lemma strip_head (s : string) (c : Ascii.ascii) (t : string) :
  strip s = String c t -> isspace c = false.
Proof.
  unfold strip. destruct (lstrip s) as [|b u] eqn:Hl; [discriminate|].
  pose proof (lstrip_head _ _ _ Hl) as Hb.
  destruct (rstrip_head (String b u) b u eq_refl Hb) as (t' & Ht').
  rewrite Ht'. intros [= -> _]. exact Hb.
Qed.

Lemma rstrip_last (s : string) (c : Ascii.ascii) :
  last_char (rstrip s) = Some c -> isspace c = false.
Proof.
  induction s as [|b s IH]; simpl; [discriminate|].
  destruct (rstrip s) as [|d t] eqn:Hs.
  - destruct (isspace b) eqn:Hb; simpl; [discriminate|].
    intros [= <-]. exact Hb.
  - exact IH.
Qed.

(** What [strip] returns does not end with white space. *)
Lemma strip_last (s : string) (c : Ascii.ascii) :
  last_char (strip s) = Some c -> isspace c = false.
Proof. apply rstrip_last. Qed.

End PyStrFacts.

(** ** Trees *)


(** Every child reference leads back to the element it was taken from. *)
Lemma children_from_parent (up : list frame) (tg : string)
    (at_ : gmap string string) (txt tl : option string)
    (l before : list element) (c : node) :
  In c (children_from up tg at_ txt tl before l) ->
  getparent c = Some (Node (Element tg at_ txt (rev_append before l) tl) up).
Proof.
  revert before. induction l as [|k after IH]; intros before; [contradiction|].
  cbn [children_from In]. intros [<-|Hin]; [reflexivity|].
  apply (IH (k :: before) Hin).
Qed.

Lemma children_nodes_parent (n c : node) :
  In c (children_nodes n) -> getparent c = Some n.
Proof.
  destruct n as [[tg at_ txt kids tl|c0 tl|target c0 tl] up];
    unfold children_nodes; cbn [here above]; [|contradiction..].
  intros Hin. apply children_from_parent in Hin. exact Hin.
Qed.












(** ** NthScraperElement: text and attributes *)


Section Attributes.
Context `{Parser} `{AttributeNames}.

(** C6. [get_attribute("innerText", filters)] is [get_text(True)] from which
    each filter string, in list order, has been deleted at all its
    occurrences, with the white space at both ends trimmed off. With the
    default filters, the text blank-LF-a-TAB-b-blank-LF gives "ab". *)
Theorem get_attribute_innerText (self : NthScraperElement.t)
    (filters : list string) :
  NthScraperElement.get_attribute self "innerText" filters
  = Ok (PyStr.strip
          (foldl PyStr.replace_with_empty
                 (NthScraperElement.get_text self true) filters))
  /\ NthScraperElement.get_text Demo.padded true = Demo.padded_text
  /\ NthScraperElement.get_attribute Demo.padded "innerText"
       NthScraperElement.inner_text_filter_default = Ok "ab".
Proof. repeat split. Qed.

(** C5, amended. For a name other than "innerText" and "innerHTML" that
    lxml reads as a key, [get_attribute] on an element returns the stored
    value of the attribute when the element has it, and raises the
    attribute-not-found [ValueError] when it has not; for a name lxml refuses
    it raises what lxml raises. On a comment or a processing instruction,
    which has no attribute, it raises the attribute-not-found [ValueError]. A
    missing attribute is never answered with a value. *)
Theorem get_attribute_literal (self : NthScraperElement.t)
    (attribute : string) (filters : list string) :
  attribute <> "innerText" -> attribute <> "innerHTML" ->
  (is_element (here (NthScraperElement.element self)) = true ->
   (forall key,
       attribute_key attribute = Ok key ->
       (forall v,
           el_attrib (here (NthScraperElement.element self)) !! key = Some v ->
           NthScraperElement.get_attribute self attribute filters = Ok v)
       /\ (el_attrib (here (NthScraperElement.element self)) !! key = None ->
           NthScraperElement.get_attribute self attribute filters
           = Raise (AttributeNotFoundError attribute)))
   /\ (forall err,
         attribute_key attribute = Raise err ->
         NthScraperElement.get_attribute self attribute filters = Raise err))
  /\ (is_element (here (NthScraperElement.element self)) = false ->
      NthScraperElement.get_attribute self attribute filters
      = Raise (AttributeNotFoundError attribute)).
Proof.
  intros Htext Hhtml. unfold NthScraperElement.get_attribute.
  rewrite !bool_decide_eq_false_2 by assumption.
  destruct (here (NthScraperElement.element self))
    as [tg at_ txt kids tl|c tl|target c tl];
    cbn [is_element element_get el_attrib].
  - split; [intros _|discriminate]. split.
    + intros key ->. split; [intros v Hv | intros Hv]; rewrite Hv; reflexivity.
    + intros err ->. reflexivity.
  - split; [discriminate|reflexivity].
  - split; [discriminate|reflexivity].
Qed.

End Attributes.

Lemma get_attribute_literal_witness :
  @NthScraperElement.get_attribute Demo.parser Demo.names
     (NthScraperElement.Build Demo.p_node) "id" [] = Ok "x"
  /\ @NthScraperElement.get_attribute Demo.parser Demo.names
       (NthScraperElement.Build Demo.p_node) "class" []
     = Raise (AttributeNotFoundError "class").
Proof.
  destruct (@get_attribute_literal Demo.parser Demo.names
              (NthScraperElement.Build Demo.p_node) "id" []
              ltac:(discriminate) ltac:(discriminate)) as [Hid _].
  destruct (@get_attribute_literal Demo.parser Demo.names
              (NthScraperElement.Build Demo.p_node) "class" []
              ltac:(discriminate) ltac:(discriminate)) as [Hclass _].
  split.
  - exact (proj1 (proj1 (Hid eq_refl) "id" eq_refl) "x" eq_refl).
  - exact (proj2 (proj1 (Hclass eq_refl) "class" eq_refl) eq_refl).
Defined.

(** ** Queries *)

Ltac run :=
  cbv [bind lift ret raise try_except gets modify in_world emit
       logger_error logger_info unbound_name].

Section Queries.
Context `{Selector} `{XPathEngine}.

Lemma element_scope_backend_failure (self : NthScraperElement.t)
    (by_mode : By) (to_search tag label xp : string) (cause : exn) (w : World) :
  selector_mode_values by_mode to_search (Some tag) = Ok (label, xp) ->
  xpath (NthScraperElement.element self) xp = Raise cause ->
  NthScraperElement.find_elements self by_mode to_search tag w
  = (Raise (Exn NameError "name 'e' is not defined"), w).
Proof.
  intros Hsel Hx. unfold NthScraperElement.find_elements. run.
  rewrite Hsel, Hx. reflexivity.
Qed.

Lemma document_scope_backend_failure (self : NthScraper.t)
    (by_mode : By) (to_search : string) (d : option node)
    (tag label xp : string) (root : node) (cause : exn) (w : World) :
  selector_mode_values by_mode to_search (Some tag) = Ok (label, xp) ->
  NthScraper.pick_doc self d = Some root ->
  el_children (here root) <> [] ->
  xpath root xp = Raise cause ->
  NthScraper.find_elements self by_mode to_search d tag w
  = (Ok [], emit_to (EvLog ERROR (label +:+ ": " +:+ str_exn cause)) w).
Proof.
  intros Hsel Hpick Hkids Hx. unfold NthScraper.find_elements. run.
  rewrite Hsel, Hpick.
  unfold el_len. destruct (el_children (here root)); [congruence|].
  cbn [length Nat.eqb]. rewrite Hx. reflexivity.
Qed.

(** Once the query is translated, the document-scope [find_elements] returns
    a list whatever the backend does: nothing escapes its handler. *)
Lemma document_find_elements_returns (self : NthScraper.t) (by_mode : By)
    (to_search : string) (d : option node) (tag label xp : string)
    (w : World) :
  selector_mode_values by_mode to_search (Some tag) = Ok (label, xp) ->
  exists found w',
    NthScraper.find_elements self by_mode to_search d tag w = (Ok found, w').
Proof.
  intros Hsel. unfold NthScraper.find_elements. run. rewrite Hsel.
  destruct (NthScraper.pick_doc self d) as [root|]; [|eauto].
  destruct (el_len (here root) =? 0)%nat; [eauto|].
  destruct (xpath root xp) as [v|cause]; [|eauto].
  destruct (xpath_truthy v); [|eauto].
  destruct (xpath_iter v) as [items|cause]; [|eauto].
  destruct (comprehension NthScraperElement.__init__ items); eauto.
Qed.

(** The element-scope [find_elements] either returns a list or raises the
    [NameError] of its handler; it never logs. *)
Lemma element_find_elements_outcomes (self : NthScraperElement.t)
    (by_mode : By) (to_search tag label xp : string) (w : World) :
  selector_mode_values by_mode to_search (Some tag) = Ok (label, xp) ->
  (exists found,
      NthScraperElement.find_elements self by_mode to_search tag w
      = (Ok found, w))
  \/ NthScraperElement.find_elements self by_mode to_search tag w
     = (Raise (Exn NameError "name 'e' is not defined"), w).
Proof.
  intros Hsel. unfold NthScraperElement.find_elements. run. rewrite Hsel.
  destruct (xpath (NthScraperElement.element self) xp) as [v|cause]; [|auto].
  destruct (xpath_truthy v); [|eauto].
  destruct (xpath_iter v) as [items|cause]; [|auto].
  destruct (comprehension NthScraperElement.__init__ items); eauto.
Qed.

(** C1. When the backend raises on the query, the document-scope
    [find_elements] logs the label with the cause and returns the empty list;
    the element-scope [find_elements] does not: its handler reads the unbound
    name [e], so the call raises [NameError] and logs nothing. *)
Theorem find_elements_backend_failure (session : NthScraper.t)
    (self : NthScraperElement.t) (by_mode : By) (to_search : string)
    (d : option node) (tag label xp : string) (root : node)
    (cause cause' : exn) (w : World) :
  selector_mode_values by_mode to_search (Some tag) = Ok (label, xp) ->
  NthScraper.pick_doc session d = Some root ->
  el_children (here root) <> [] ->
  xpath root xp = Raise cause ->
  xpath (NthScraperElement.element self) xp = Raise cause' ->
  NthScraper.find_elements session by_mode to_search d tag w
  = (Ok [], emit_to (EvLog ERROR (label +:+ ": " +:+ str_exn cause)) w)
  /\ NthScraperElement.find_elements self by_mode to_search tag w
     = (Raise (Exn NameError "name 'e' is not defined"), w).
Proof.
  intros Hsel Hpick Hkids Hx Hx'. split.
  - eapply document_scope_backend_failure; eassumption.
  - eapply element_scope_backend_failure; eassumption.
Qed.

(** What [find_element] on an element returns, case by case. *)
Lemma element_find_element_cases (self : NthScraperElement.t)
    (by_mode : By) (to_search label xp : string) (w : World) :
  selector_mode_values by_mode to_search None = Ok (label, xp) ->
  NthScraperElement.find_element self by_mode to_search w
  = (match xpath (NthScraperElement.element self) xp with
     | Ok v =>
         match xpath_first v with
         | Ok (XElement n) => Ok (NthScraperElement.Build n)
         | Ok (XText _) => Raise InvalidElementError
         | Raise _ => Raise NotFoundError_in_element
         end
     | Raise _ => Raise NotFoundError_in_element
     end, w).
Proof.
  intros Hsel. unfold NthScraperElement.find_element. run. rewrite Hsel.
  destruct (xpath (NthScraperElement.element self) xp) as [v|cause];
    [|reflexivity].
  destruct (xpath_first v) as [[n|s]|cause]; reflexivity.
Qed.

(** On a document whose root has children, [find_element] builds the handle
    inside its [try]: a result whose first item is not an element ends in
    NotFoundError. *)
Lemma document_find_element_refused (session : NthScraper.t) (by_mode : By)
    (to_search : string) (d : option node) (tag label xp : string)
    (root : node) (v : xpath_value) (w : World) :
  selector_mode_values by_mode to_search (Some tag) = Ok (label, xp) ->
  NthScraper.pick_doc session d = Some root ->
  el_children (here root) <> [] ->
  xpath root xp = Ok v ->
  (forall n, xpath_first v <> Ok (XElement n)) ->
  NthScraper.find_element session by_mode to_search d tag w
  = (Raise NotFoundError_in_document, w).
Proof.
  intros Hsel Hpick Hkids Hx Hfirst. unfold NthScraper.find_element. run.
  rewrite Hsel, Hpick.
  unfold el_len. destruct (el_children (here root)); [congruence|].
  cbn [length Nat.eqb]. rewrite Hx.
  destruct (xpath_first v) as [[n|s]|cause]; [|reflexivity..].
  exfalso. exact (Hfirst n eq_refl).
Qed.

(** C4. [find_element] on an element returns one handle on the first match
    in document order when that match is an element, and raises NotFoundError
    when the query matches nothing (an empty node-set, an empty string, a
    number, a boolean) or its execution raises. When the first match is a
    string it does not: the handle is built after the [try], so the
    [ValueError] of the constructor leaves the call, where the document-scope
    [find_element], which builds the handle inside its [try], raises
    NotFoundError on the same result. *)
Theorem element_find_element_first_match (self : NthScraperElement.t)
    (by_mode : By) (to_search label xp : string) (w : World) :
  selector_mode_values by_mode to_search None = Ok (label, xp) ->
  (forall n rest,
      xpath (NthScraperElement.element self) xp = Ok (XNodes (XElement n :: rest)) ->
      NthScraperElement.find_element self by_mode to_search w
      = (Ok (NthScraperElement.Build n), w))
  /\ (xpath (NthScraperElement.element self) xp = Ok (XNodes []) ->
      NthScraperElement.find_element self by_mode to_search w
      = (Raise NotFoundError_in_element, w))
  /\ (xpath (NthScraperElement.element self) xp = Ok (XString EmptyString) ->
      NthScraperElement.find_element self by_mode to_search w
      = (Raise NotFoundError_in_element, w))
  /\ (forall nonzero,
      xpath (NthScraperElement.element self) xp = Ok (XNumber nonzero) ->
      NthScraperElement.find_element self by_mode to_search w
      = (Raise NotFoundError_in_element, w))
  /\ (forall b,
      xpath (NthScraperElement.element self) xp = Ok (XBoolean b) ->
      NthScraperElement.find_element self by_mode to_search w
      = (Raise NotFoundError_in_element, w))
  /\ (forall cause,
      xpath (NthScraperElement.element self) xp = Raise cause ->
      NthScraperElement.find_element self by_mode to_search w
      = (Raise NotFoundError_in_element, w))
  /\ (forall s rest,
      xpath (NthScraperElement.element self) xp = Ok (XNodes (XText s :: rest)) ->
      NthScraperElement.find_element self by_mode to_search w
      = (Raise InvalidElementError, w))
  /\ (forall c s,
      xpath (NthScraperElement.element self) xp = Ok (XString (String c s)) ->
      NthScraperElement.find_element self by_mode to_search w
      = (Raise InvalidElementError, w))
  /\ (forall session d tag label' xp' root s rest w',
      selector_mode_values by_mode to_search (Some tag) = Ok (label', xp') ->
      NthScraper.pick_doc session d = Some root ->
      el_children (here root) <> [] ->
      xpath root xp' = Ok (XNodes (XText s :: rest)) ->
      NthScraper.find_element session by_mode to_search d tag w'
      = (Raise NotFoundError_in_document, w')).
Proof.
  intros Hsel.
  pose proof (element_find_element_cases self by_mode to_search label xp w Hsel)
    as Hcases.
  repeat match goal with |- _ /\ _ => split end;
    try (intros; rewrite Hcases;
         match goal with Hx : xpath _ _ = _ |- _ => rewrite Hx end;
         reflexivity).
  intros session d tag label' xp' root s rest w' Hsel' Hpick Hkids Hx.
  eapply document_find_element_refused; try eassumption.
  intros n. discriminate.
Qed.

(** C2. On a session without a tree, and with no alternate document passed
    (or a childless one), the document-scope [find_elements] logs that the
    document is not loaded and returns the empty list, and [find_element]
    raises [ReferenceError], which is not the NotFoundError of a search
    without match. *)
Theorem unloaded_document_queries (self : NthScraper.t) (by_mode : By)
    (to_search : string) (d : option node) (tag label xp : string)
    (w : World) :
  selector_mode_values by_mode to_search (Some tag) = Ok (label, xp) ->
  NthScraper.doc self = None ->
  NthScraper.doc_truthy d = false ->
  NthScraper.find_elements self by_mode to_search d tag w
  = (Ok [], emit_to not_loaded_log w)
  /\ NthScraper.find_element self by_mode to_search d tag w
     = (Raise NthScraper.not_loaded, w)
  /\ exn_cls NthScraper.not_loaded = ReferenceError
  /\ NthScraper.not_loaded <> NotFoundError_in_document.
Proof.
  intros Hsel Hdoc Hd.
  unfold NthScraper.find_elements, NthScraper.find_element, NthScraper.pick_doc.
  run. rewrite Hsel, Hd, Hdoc. repeat split. discriminate.
Qed.

Lemma pick_doc_childless (self : NthScraper.t) (root : node) (d : option node) :
  NthScraper.doc self = Some root ->
  el_children (here root) = [] ->
  NthScraper.pick_doc self d = NthScraper.pick_doc (NthScraper.set_doc None self) d
  \/ (NthScraper.pick_doc self d = Some root
      /\ NthScraper.pick_doc (NthScraper.set_doc None self) d = None).
Proof.
  intros Hdoc Hkids. unfold NthScraper.pick_doc.
  destruct (NthScraper.doc_truthy d); [left; reflexivity|].
  right. rewrite Hdoc. split; reflexivity.
Qed.

(** C9. A session whose tree is a root without children answers the
    document-scope queries as a session without tree does: [find_elements]
    logs that the document is not loaded and returns the empty list,
    [find_element] raises the not-loaded [ReferenceError]. *)
Theorem childless_root_as_unloaded (self : NthScraper.t) (root : node)
    (by_mode : By) (to_search : string) (d : option node) (tag : string)
    (w : World) :
  NthScraper.doc self = Some root ->
  el_children (here root) = [] ->
  NthScraper.find_elements self by_mode to_search d tag w
  = NthScraper.find_elements (NthScraper.set_doc None self) by_mode to_search d tag w
  /\ NthScraper.find_element self by_mode to_search d tag w
     = NthScraper.find_element (NthScraper.set_doc None self) by_mode to_search d tag w
  /\ (forall label xp,
        selector_mode_values by_mode to_search (Some tag) = Ok (label, xp) ->
        NthScraper.doc_truthy d = false ->
        NthScraper.find_elements self by_mode to_search d tag w
        = (Ok [], emit_to not_loaded_log w)
        /\ NthScraper.find_element self by_mode to_search d tag w
           = (Raise NthScraper.not_loaded, w)).
Proof.
  intros Hdoc Hkids.
  unfold NthScraper.find_elements, NthScraper.find_element. run.
  destruct (pick_doc_childless self root d Hdoc Hkids) as [Heq|[Hsome Hnone]].
  - rewrite <- Heq. split; [reflexivity|]. split; [reflexivity|].
    intros label xp Hsel Hd. rewrite Hsel.
    unfold NthScraper.pick_doc. rewrite Hd, Hdoc.
    unfold el_len. rewrite Hkids. split; reflexivity.
  - rewrite Hsome, Hnone. unfold el_len. rewrite Hkids. cbn [length Nat.eqb].
    split; [|split].
    + destruct (selector_mode_values by_mode to_search (Some tag)) as [[? ?]|];
        reflexivity.
    + destruct (selector_mode_values by_mode to_search (Some tag)) as [[? ?]|];
        reflexivity.
    + intros label xp Hsel Hd. rewrite Hsel. split; reflexivity.
Qed.

End Queries.

(** ** RequestsWrapper: the hit counter *)

Lemma sleep_limit_below_float_limit : sleep_limit < float_limit.
Proof. reflexivity. Qed.

Lemma first_clash_none (names : list string) (rest : gmap string string) :
  first_clash names rest = None <-> forall name, In name names -> rest !! name = None.
Proof.
  induction names as [|n names IH]; cbn [first_clash In].
  - split; [intros _ name [] | reflexivity].
  - destruct (rest !! n) as [x|] eqn:Hn.
    + split; [discriminate|]. intros Hall.
      specialize (Hall n (or_introl eq_refl)). congruence.
    + rewrite IH. split.
      * intros Hall name [<-|Hin]; [exact Hn | exact (Hall name Hin)].
      * intros Hall name Hin. apply Hall. right. exact Hin.
Qed.

Lemma first_clash_some (names : list string) (rest : gmap string string)
    (name : string) :
  first_clash names rest = Some name -> In name names /\ is_Some (rest !! name).
Proof.
  induction names as [|n names IH]; cbn [first_clash In]; [discriminate|].
  destruct (rest !! n) as [x|] eqn:Hn.
  - intros [= <-]. rewrite Hn. eauto.
  - intros Hclash. destruct (IH Hclash). auto.
Qed.

Section Transport.
Context `{Network}.

Lemma randrange_1_4 (w : World) :
  exists v, randrange 1 4 w = (Ok v, {| trace := trace w; draws := S (draws w) |})
            /\ 1 <= v < 4.
Proof.
  unfold randrange. eexists. split; [reflexivity|].
  pose proof (Z.mod_pos_bound (entropy (draws w)) (4 - 1) ltac:(lia)). lia.
Qed.

(** [time.sleep] on a length it accepts, and on one it refuses. *)
Lemma time_sleep_accepts (s : Z) (w : World) :
  sleep_length_accepted s ->
  time_sleep s w = (Ok tt, emit_to (EvSleep s) w).
Proof.
  unfold sleep_length_accepted, time_sleep. intros Hs.
  pose proof sleep_limit_below_float_limit as Hlimit.
  destruct (float_limit <=? Z.abs s) eqn:Hfloat; [lia|].
  destruct (sleep_limit <? Z.abs s) eqn:Hlong; [lia|].
  destruct (s <? 0) eqn:Hneg; [lia|]. reflexivity.
Qed.

Lemma time_sleep_refuses (s : Z) (w : World) :
  ~ sleep_length_accepted s ->
  exists e, time_sleep s w = (Raise e, w)
            /\ (exn_cls e = ValueError \/ exn_cls e = OverflowError).
Proof.
  unfold sleep_length_accepted, time_sleep. intros Hs.
  destruct (float_limit <=? Z.abs s) eqn:Hfloat; [eexists; split; [reflexivity|auto]|].
  destruct (sleep_limit <? Z.abs s) eqn:Hlong; [eexists; split; [reflexivity|auto]|].
  destruct (s <? 0) eqn:Hneg; [eexists; split; [reflexivity|auto]|]. lia.
Qed.

Lemma sleep_length_accepted_dec (s : Z) :
  {sleep_length_accepted s} + {~ sleep_length_accepted s}.
Proof.
  unfold sleep_length_accepted.
  destruct (Z_le_dec 0 s); [|right; lia].
  destruct (Z_le_dec s sleep_limit); [left; lia | right; lia].
Defined.


(** [request] as one pass over the state. *)
Lemma request_run (method target : string) (kwargs : RequestsWrapper.Kwargs)
    (self : RequestsWrapper.t) (w : World) :
  let seconds :=
    match RequestsWrapper.kw_sleep_seconds kwargs with
    | Some s => s
    | None => 1 + entropy (draws w) mod (4 - 1)
    end in
  let hdrs :=
    match RequestsWrapper.kw_headers kwargs with Some h => h | None => ∅ end
    ∪ RequestsWrapper.headers in
  RequestsWrapper.request method target kwargs (self, w)
  = match time_sleep seconds {| trace := trace w; draws := S (draws w) |} with
    | (Raise e, w2) => (Raise e, (self, w2))
    | (Ok _, w2) =>
        match session_request (trace w2) (RequestsWrapper.session self) method
                target hdrs (RequestsWrapper.kw_rest kwargs) with
        | Raise e =>
            (Raise e, (RequestsWrapper.count_hit self,
                       emit_to (EvRequest method target hdrs) w2))
        | Ok resp =>
            match raise_for_status resp with
            | Raise e =>
                (Raise e, (RequestsWrapper.count_hit self,
                           emit_to (EvRequest method target hdrs) w2))
            | Ok _ =>
                (Ok resp, (RequestsWrapper.count_hit self,
                           emit_to (EvRequest method target hdrs) w2))
            end
        end
    end.
Proof.
  unfold RequestsWrapper.request, randrange, RequestsWrapper.send.
  run. cbn [fst snd].
  destruct (time_sleep _ _) as [[[]|e] w2]; [|reflexivity]. cbn [fst snd].
  destruct (session_request _ _ _ _ _ _) as [resp|e]; [|reflexivity].
  destruct (raise_for_status resp); reflexivity.
Qed.




Lemma throttle_accepted_dec (kwargs : RequestsWrapper.Kwargs) :
  {throttle_accepted kwargs} + {~ throttle_accepted kwargs}.
Proof.
  unfold throttle_accepted.
  destruct (RequestsWrapper.kw_sleep_seconds kwargs);
    [apply sleep_length_accepted_dec | left; exact I].
Defined.

Lemma bind_keywords_binds {S} (callee : string) (names : list string)
    (rest : gmap string string) (s : S) :
  first_clash names rest = None ->
  bind_keywords callee names rest s = (Ok tt, s).
Proof. unfold bind_keywords. intros ->. reflexivity. Qed.

Lemma bind_keywords_clashes {S} (callee : string) (names : list string)
    (rest : gmap string string) (s : S) :
  first_clash names rest <> None ->
  exists msg, bind_keywords callee names rest s = (Raise (Exn TypeError msg), s).
Proof.
  unfold bind_keywords. destruct (first_clash names rest); [eauto | congruence].
Qed.

Lemma keywords_bind_entry (kwargs : RequestsWrapper.Kwargs) :
  keywords_bind kwargs ->
  first_clash ["self"; "url"] (RequestsWrapper.kw_rest kwargs) = None.
Proof.
  unfold keywords_bind. rewrite !first_clash_none.
  intros Hall name Hin. apply Hall. cbn in *. tauto.
Qed.

Lemma entry_clash_is_clash (kwargs : RequestsWrapper.Kwargs) :
  first_clash ["self"; "url"] (RequestsWrapper.kw_rest kwargs) <> None ->
  ~ keywords_bind kwargs.
Proof. intros Hclash Hbind. apply Hclash, keywords_bind_entry, Hbind. Qed.








End Transport.
(** ** NthScraper: fetching *)

Section Fetch.
Context `{Parser} `{Network}.

Lemma request_returns (method target : string)
    (kwargs : RequestsWrapper.Kwargs) (self self' : RequestsWrapper.t)
    (w w' : World) (r : Response) :
  RequestsWrapper.request method target kwargs (self, w) = (Ok r, (self', w')) ->
  exists history hdrs,
    session_request history (RequestsWrapper.session self) method target hdrs
      (RequestsWrapper.kw_rest kwargs) = Ok r.
Proof.
  pose proof (request_run method target kwargs self w) as Hrun.
  cbv zeta in Hrun. rewrite Hrun. clear Hrun.
  destruct (time_sleep _ _) as [[[]|e] w2]; [|discriminate].
  match goal with
  | |- context [session_request ?h ?s ?m ?u ?hd ?rs] =>
      destruct (session_request h s m u hd rs) as [resp|cause] eqn:Hreq;
        [|discriminate];
      destruct (raise_for_status resp); [|discriminate];
      intros [= <- _ _]; exists h, hd; exact Hreq
  end.
Qed.

Lemma call_request_returns (method target : string)
    (kwargs : RequestsWrapper.Kwargs) (s s' : RequestsWrapper.t * World)
    (r : Response) :
  RequestsWrapper.call_request method target kwargs s = (Ok r, s') ->
  keywords_bind kwargs
  /\ RequestsWrapper.request method target kwargs s = (Ok r, s').
Proof.
  unfold RequestsWrapper.call_request, keywords_bind, bind, bind_keywords.
  destruct (first_clash _ _); [discriminate|]. auto.
Qed.

(** [_get_response] as one pass over the state: the throttle is chosen, the
    wrapper is called, and only when it returns are the response and then the
    tree assigned. *)
Lemma _get_response_run (self : NthScraper.t) (target : string)
    (sleep_seconds : option Z) (is_post : bool)
    (kwargs : RequestsWrapper.Kwargs) (w : World) :
  let '(seconds, w1) :=
    match sleep_seconds with
    | Some s => (s, w)
    | None => (1 + entropy (draws w) mod (5 + 1 - 1),
               {| trace := trace w; draws := S (draws w) |})
    end in
  NthScraper._get_response target sleep_seconds is_post kwargs (self, w)
  = match RequestsWrapper.call_request (if is_post then "POST" else "GET")
            target
            {| RequestsWrapper.kw_sleep_seconds := Some seconds;
               RequestsWrapper.kw_headers := RequestsWrapper.kw_headers kwargs;
               RequestsWrapper.kw_rest := RequestsWrapper.kw_rest kwargs |}
            (NthScraper.requests_wrapper self, w1) with
    | (Raise e, (rw, w2)) =>
        (Raise e, ({| NthScraper.requests_wrapper := rw;
                      NthScraper.doc := NthScraper.doc self;
                      NthScraper.response := NthScraper.response self |}, w2))
    | (Ok resp, (rw, w2)) =>
        if PyStr.truthy (content resp) then
          match fromstring (content resp) with
          | Ok root =>
              (Ok resp, ({| NthScraper.requests_wrapper := rw;
                            NthScraper.doc := Some root;
                            NthScraper.response := Some resp |}, w2))
          | Raise e =>
              (Raise e, ({| NthScraper.requests_wrapper := rw;
                            NthScraper.doc := NthScraper.doc self;
                            NthScraper.response := Some resp |}, w2))
          end
        else
          (Ok resp, ({| NthScraper.requests_wrapper := rw;
                        NthScraper.doc := None;
                        NthScraper.response := Some resp |}, w2))
    end.
Proof.
  unfold NthScraper._get_response, NthScraper.on_wrapper, NthScraper.update,
    NthScraper.parse_content, randint, randrange,
    RequestsWrapper.get, RequestsWrapper.post.
  run. cbn [fst snd].
  destruct sleep_seconds as [s|]; destruct is_post; cbn [fst snd];
    match goal with
    | |- context [RequestsWrapper.call_request ?m ?u ?k ?s] =>
        destruct (RequestsWrapper.call_request m u k s) as [[resp|e] [rw w2]]
    end; cbn [fst snd]; try reflexivity;
    destruct (PyStr.truthy (content resp)); try reflexivity;
    destruct (fromstring (content resp)); reflexivity.
Qed.

(** C3. When a fetch returns, the session holds the response just returned
    and, for a non-empty body, the parse of that body, for an empty one no
    tree. Nothing of the response and tree held before enters the new state:
    from any other prior response and tree the fetch ends in the same state. *)
Theorem get_response_replaces_state (self self' : NthScraper.t)
    (target : string) (sleep_seconds : option Z) (is_post : bool)
    (kwargs : RequestsWrapper.Kwargs) (w w' : World) (r : Response) :
  NthScraper._get_response target sleep_seconds is_post kwargs (self, w)
  = (Ok r, (self', w')) ->
  NthScraper.response self' = Some r
  /\ match NthScraper.doc self' with
     | Some root =>
         PyStr.truthy (content r) = true /\ fromstring (content r) = Ok root
     | None => content r = EmptyString
     end
  /\ (exists history hdrs,
        session_request history
          (RequestsWrapper.session (NthScraper.requests_wrapper self))
          (if is_post then "POST" else "GET") target hdrs
          (RequestsWrapper.kw_rest kwargs) = Ok r)
  /\ (forall d0 r0,
        NthScraper._get_response target sleep_seconds is_post kwargs
          ({| NthScraper.requests_wrapper := NthScraper.requests_wrapper self;
              NthScraper.doc := d0; NthScraper.response := r0 |}, w)
        = (Ok r, (self', w'))).
Proof.
  intros Hrun.
  assert (forall d0 r0,
    NthScraper._get_response target sleep_seconds is_post kwargs
      ({| NthScraper.requests_wrapper := NthScraper.requests_wrapper self;
          NthScraper.doc := d0; NthScraper.response := r0 |}, w)
    = (Ok r, (self', w'))) as Hany.
  { intros d0 r0.
    pose proof (_get_response_run self target sleep_seconds is_post kwargs w)
      as Hself.
    pose proof (_get_response_run
      {| NthScraper.requests_wrapper := NthScraper.requests_wrapper self;
         NthScraper.doc := d0; NthScraper.response := r0 |}
      target sleep_seconds is_post kwargs w) as Hother.
    cbn [NthScraper.requests_wrapper NthScraper.doc NthScraper.response]
      in Hother.
    destruct (match sleep_seconds with
              | Some s => (s, w)
              | None => _ end) as [seconds w1].
    rewrite Hother. rewrite Hself in Hrun. clear Hself Hother.
    destruct (RequestsWrapper.call_request _ _ _ _) as [[resp|e] [rw w2]];
      [|discriminate].
    destruct (PyStr.truthy (content resp)); [|exact Hrun].
    destruct (fromstring (content resp)); [exact Hrun | discriminate]. }
  pose proof (_get_response_run self target sleep_seconds is_post kwargs w)
    as Hself.
  destruct (match sleep_seconds with
            | Some s => (s, w)
            | None => _ end) as [seconds w1].
  rewrite Hself in Hrun. clear Hself.
  destruct (RequestsWrapper.call_request _ _ _ _) as [[resp|e] [rw w2]] eqn:Hreq;
    [|discriminate].
  apply call_request_returns in Hreq as [_ Hreq].
  apply request_returns in Hreq. cbn [RequestsWrapper.kw_rest] in Hreq.
  destruct (PyStr.truthy (content resp)) eqn:Hbody.
  - destruct (fromstring (content resp)) as [root|e] eqn:Hparse;
      [|discriminate].
    injection Hrun as <- <- <-. cbn. auto.
  - injection Hrun as <- <- <-. cbn.
    destruct (content resp); [auto | discriminate].
Qed.

End Fetch.

(** ** NthScraper: loading a local file *)

Section Local.
Context `{Parser} `{Network}.

(** When [get_from_local] returns, the response it returns and keeps has been
    closed, and the close is the last effect. *)
Lemma get_from_local_closes_on_return (self self' : NthScraper.t)
    (file_path : string) (w w' : World) (r : Response) :
  NthScraper.get_from_local file_path (self, w) = (Ok r, (self', w')) ->
  closed r = true
  /\ NthScraper.response self' = Some r
  /\ exists before, trace w' = before ++ [EvResponseClose (url r)].
Proof.
  unfold NthScraper.get_from_local, NthScraper.close_response,
    NthScraper.update, NthScraper.parse_content, NthScraper.local_get,
    requests_session.
  run. cbn [fst snd].
  destruct (local_file_send _ _ _) as [resp|e]; [|discriminate].
  destruct (PyStr.truthy (content resp)).
  - destruct (fromstring (content resp)); [|discriminate].
    intros [= <- <- <-]. cbn. eauto.
  - intros [= <- <- <-]. cbn. eauto.
Qed.

(** C8. When the parser raises on the body of the local file,
    [get_from_local] raises with it: the response is left as the adapter
    handed it over, and the effects of the call are the session, the read and
    the log line, with no close among them. *)
Theorem get_from_local_parse_failure (self : NthScraper.t)
    (file_path : string) (w : World) (resp : Response) (cause : exn) :
  local_file_send (trace (emit_to EvSessionOpen w))
    {| session_headers := default_session_headers |}
    ("file://" +:+ file_path) = Ok resp ->
  PyStr.truthy (content resp) = true ->
  fromstring (content resp) = Raise cause ->
  NthScraper.get_from_local file_path (self, w)
  = (Raise cause,
     (NthScraper.set_response (Some resp) self,
      {| trace := trace w ++
                  [EvSessionOpen;
                   EvLocalGet ("file://" +:+ file_path);
                   EvLog INFO ("Scraping data from: " +:+ file_path)];
         draws := draws w |})).
Proof.
  intros Hread Hbody Hparse.
  unfold NthScraper.get_from_local, NthScraper.close_response,
    NthScraper.update, NthScraper.parse_content, NthScraper.local_get,
    requests_session.
  run. cbn [fst snd]. rewrite Hread. cbn [fst snd].
  rewrite Hbody, Hparse. unfold emit_to. cbn [trace draws].
  rewrite <- !app_assoc. reflexivity.
Qed.

End Local.

(** ** The properties on the sample page *)

Lemma find_elements_backend_failure_witness :
  @NthScraper.find_elements Demo.selector Demo.engine
     Demo.loaded Demo.XPATH "//[" None "node()" Demo.quiet
  = (Ok [], emit_to (EvLog ERROR "Error in XPATH: Invalid expression") Demo.quiet)
  /\ @NthScraperElement.find_elements Demo.selector Demo.engine
       (NthScraperElement.Build Demo.p_node) Demo.XPATH "//[" "node()" Demo.quiet
     = (Raise (Exn NameError "name 'e' is not defined"), Demo.quiet).
Proof.
  apply (@find_elements_backend_failure Demo.selector Demo.engine
           Demo.loaded (NthScraperElement.Build Demo.p_node) Demo.XPATH "//["
           None "node()" "Error in XPATH" "//[" Demo.html_node
           Demo.invalid_expression Demo.invalid_expression Demo.quiet).
  - reflexivity.
  - reflexivity.
  - discriminate.
  - reflexivity.
  - reflexivity.
Defined.

Lemma element_find_element_text_match :
  ~ @finds_first_or_not_found Demo.selector Demo.engine
      (NthScraperElement.Build Demo.html_node) Demo.XPATH "//p/text()"
      Demo.quiet.
Proof.
  intros Hclaim.
  specialize (Hclaim "Error in XPATH" "//p/text()" eq_refl).
  cbn in Hclaim. destruct Hclaim as (h & Hrun & _).
  vm_compute in Hrun. discriminate Hrun.
Qed.

Lemma element_find_element_first_match_witness :
  @NthScraperElement.find_element Demo.selector Demo.engine
     (NthScraperElement.Build Demo.html_node) Demo.XPATH "//p" Demo.quiet
  = (Ok (NthScraperElement.Build Demo.p_node), Demo.quiet)
  /\ @NthScraperElement.find_element Demo.selector Demo.engine
       (NthScraperElement.Build Demo.html_node) Demo.XPATH "//p/text()"
       Demo.quiet
     = (Raise InvalidElementError, Demo.quiet)
  /\ @NthScraper.find_element Demo.selector Demo.engine
       Demo.loaded Demo.XPATH "//p/text()" None "node()" Demo.quiet
     = (Raise NotFoundError_in_document, Demo.quiet).
Proof.
  pose proof (@element_find_element_first_match Demo.selector Demo.engine
                (NthScraperElement.Build Demo.html_node) Demo.XPATH "//p"
                "Error in XPATH" "//p" Demo.quiet eq_refl) as Hfirst.
  pose proof (@element_find_element_first_match Demo.selector Demo.engine
                (NthScraperElement.Build Demo.html_node) Demo.XPATH
                "//p/text()" "Error in XPATH" "//p/text()" Demo.quiet eq_refl)
    as (_ & _ & _ & _ & _ & _ & Htext & _ & Hdocument).
  split; [|split].
  - exact (proj1 Hfirst Demo.p_node [] eq_refl).
  - exact (Htext "Hi" [] eq_refl).
  - apply (Hdocument Demo.loaded None "node()" "Error in XPATH" "//p/text()"
             Demo.html_node "Hi" [] Demo.quiet eq_refl eq_refl);
      [discriminate | reflexivity].
Defined.

(** On the paragraph [<p id='x'>] the empty name is neither answered with a
    value nor with AttributeNotFoundError: lxml refuses it. *)
Lemma get_attribute_empty_name :
  ~ @value_or_not_found Demo.parser Demo.names
      (NthScraperElement.Build Demo.p_node) EmptyString [].
Proof. unfold value_or_not_found. vm_compute. discriminate. Qed.

(** What lxml makes of a few names on the paragraph [<p id='x'>]: in Clark
    notation with an empty namespace [id] is found, and a name of braces
    only is refused. *)
Example get_attribute_clark_names :
  @NthScraperElement.get_attribute Demo.parser Demo.names
     (NthScraperElement.Build Demo.p_node) "{}id" [] = Ok "x"
  /\ @NthScraperElement.get_attribute Demo.parser Demo.names
       (NthScraperElement.Build Demo.p_node) "{}" []
     = Raise (Exn ValueError "Empty tag name")
  /\ @NthScraperElement.get_attribute Demo.parser Demo.names
       (NthScraperElement.Build Demo.p_node) "{id" []
     = Raise (Exn ValueError "Invalid tag name")
  /\ @NthScraperElement.get_attribute Demo.parser Demo.names
       Demo.remark "id" []
     = Raise (AttributeNotFoundError "id").
Proof. vm_compute. repeat split. Qed.


(** On [<p>A<!--c-->B</p>] the comment adds nothing to the text of the
    paragraph; on the comment itself the two readings are "" and "c". *)
Example get_text_around_comment :
  NthScraperElement.get_text Demo.remarked true = "AB"
  /\ NthScraperElement.get_text Demo.remarked false = "A"
  /\ NthScraperElement.get_text Demo.remark true = EmptyString
  /\ NthScraperElement.get_text Demo.remark false = "c".
Proof. repeat split. Qed.

Lemma unloaded_document_queries_witness :
  @NthScraper.find_elements Demo.selector Demo.engine
     Demo.fresh Demo.XPATH "//p" None "node()" Demo.quiet
  = (Ok [], emit_to not_loaded_log Demo.quiet)
  /\ @NthScraper.find_element Demo.selector Demo.engine
       Demo.fresh Demo.XPATH "//p" None "node()" Demo.quiet
     = (Raise NthScraper.not_loaded, Demo.quiet).
Proof.
  destruct (@unloaded_document_queries Demo.selector Demo.engine
              Demo.fresh Demo.XPATH "//p" None "node()" "Error in XPATH" "//p"
              Demo.quiet eq_refl eq_refl eq_refl) as (Hall & Hone & _).
  split; [exact Hall | exact Hone].
Defined.

Lemma childless_root_as_unloaded_witness :
  @NthScraper.find_elements Demo.selector Demo.engine
     Demo.childless Demo.XPATH "//p" None "node()" Demo.quiet
  = @NthScraper.find_elements Demo.selector Demo.engine
      Demo.fresh Demo.XPATH "//p" None "node()" Demo.quiet
  /\ @NthScraper.find_element Demo.selector Demo.engine
       Demo.childless Demo.XPATH "//p" None "node()" Demo.quiet
     = (Raise NthScraper.not_loaded, Demo.quiet).
Proof.
  destruct (@childless_root_as_unloaded Demo.selector Demo.engine
              Demo.childless Demo.lone_p Demo.XPATH "//p" None "node()"
              Demo.quiet eq_refl eq_refl) as (Hall & _ & Hexplicit).
  split.
  - exact Hall.
  - exact (proj2 (Hexplicit "Error in XPATH" "//p" eq_refl eq_refl)).
Defined.

Lemma get_response_replaces_state_witness :
  exists self' w',
    @NthScraper._get_response Demo.parser Demo.network
       "https://example.org/" (Some 0) false RequestsWrapper.no_kwargs
       (Demo.childless, Demo.quiet)
    = (Ok (Demo.respond 200 "OK" "https://example.org/" Demo.page_bytes),
       (self', w'))
    /\ NthScraper.response self'
       = Some (Demo.respond 200 "OK" "https://example.org/" Demo.page_bytes)
    /\ NthScraper.doc self' = Some Demo.html_node.
Proof.
  eexists _, _. split; [vm_compute; reflexivity|].
  match goal with
  | |- NthScraper.response ?s = _ /\ _ =>
      destruct (@get_response_replaces_state Demo.parser Demo.network
                  Demo.childless s "https://example.org/" (Some 0) false
                  RequestsWrapper.no_kwargs Demo.quiet _
                  (Demo.respond 200 "OK" "https://example.org/" Demo.page_bytes)
                  ltac:(vm_compute; reflexivity)) as (Hresp & _)
  end.
  split; [exact Hresp | reflexivity].
Defined.

Lemma get_from_local_parse_failure_witness :
  @NthScraper.get_from_local Demo.parser Demo.network "/srv/blank.html"
     (Demo.loaded, Demo.quiet)
  = (Raise Demo.document_is_empty,
     (NthScraper.set_response
        (Some (Demo.respond 200 "OK" "file:///srv/blank.html" " ")) Demo.loaded,
      {| trace := [EvSessionOpen;
                   EvLocalGet "file:///srv/blank.html";
                   EvLog INFO "Scraping data from: /srv/blank.html"];
         draws := 0 |})).
Proof.
  apply (@get_from_local_parse_failure Demo.parser Demo.network Demo.loaded
           "/srv/blank.html" Demo.quiet
           (Demo.respond 200 "OK" "file:///srv/blank.html" " ")
           Demo.document_is_empty).
  - reflexivity.
  - reflexivity.
  - reflexivity.
Defined.



(** The scenario of the spec: after fetching the sample page, finding by id
    "x" among the [p] elements gives a handle whose text is "Hi" and whose tag
    is "p". *)
Example fetch_then_find_by_id :
  match @NthScraper.get Demo.parser Demo.network "https://example.org/"
          (Some 0) NthScraper.no_keywords (Demo.fresh, Demo.quiet) with
  | (Ok _, (session, w)) =>
      match @NthScraper.find_element Demo.selector Demo.engine session
              Demo.ID "x" None "p" w with
      | (Ok h, _) =>
          NthScraperElement.get_text h true = "Hi"
          /\ NthScraperElement.get_tag_name h = TagName "p"
      | _ => False
      end
  | _ => False
  end.
Proof. vm_compute. split; reflexivity. Qed.

(** A request answered with 404 raises in [raise_for_status], after it has
    been counted. *)
Example post_not_found_is_counted :
  let after :=
    @RequestsWrapper.post Demo.network "https://example.org/missing"
      Demo.no_throttle (@RequestsWrapper.__init__ Demo.network ∅, Demo.quiet) in
  fst after
  = Raise (Exn HTTPError
             "404 Client Error: Not Found for url: https://example.org/missing")
  /\ RequestsWrapper.get_hit_count (fst (snd after)) = 1.
Proof. vm_compute. split; reflexivity. Qed.

(** * Further properties *)

(** ** Handles built from a node-set *)

Lemma comprehension_elements (ns : list node) :
  comprehension NthScraperElement.__init__ (map XElement ns)
  = Ok (map NthScraperElement.Build ns).
Proof.
  induction ns as [|n ns IH]; [reflexivity|].
  cbn [map comprehension NthScraperElement.__init__]. rewrite IH. reflexivity.
Qed.

Lemma comprehension_returns (items : list xpath_item)
    (found : list NthScraperElement.t) :
  comprehension NthScraperElement.__init__ items = Ok found ->
  items = map XElement (map NthScraperElement.element found).
Proof.
  revert found. induction items as [|x items IH]; intros found.
  - intros [= <-]. reflexivity.
  - cbn [comprehension]. destruct x as [n|s]; [|discriminate].
    cbn [NthScraperElement.__init__].
    destruct (comprehension NthScraperElement.__init__ items) as [hs|e];
      [|discriminate].
    intros [= <-]. cbn [map NthScraperElement.element]. f_equal.
    apply IH. reflexivity.
Qed.

Lemma comprehension_refuses_text (items : list xpath_item) (s : string) :
  In (XText s) items ->
  comprehension NthScraperElement.__init__ items = Raise InvalidElementError.
Proof.
  induction items as [|x items IH]; [contradiction|].
  intros [->|Hin]; [reflexivity|].
  cbn [comprehension]. destruct x as [n|t]; [|reflexivity].
  cbn [NthScraperElement.__init__]. rewrite (IH Hin). reflexivity.
Qed.

Lemma comprehension_chars (s : string) (found : list NthScraperElement.t) :
  comprehension NthScraperElement.__init__ (chars s) = Ok found ->
  s = EmptyString.
Proof. destruct s; [reflexivity | discriminate]. Qed.

Section MoreQueries.
Context `{Selector} `{XPathEngine}.

(** The document-scope [find_elements] on a root with children, as a function
    of what the backend answers. *)
Lemma document_find_elements_loaded (self : NthScraper.t) (by_mode : By)
    (to_search : string) (d : option node) (tag label xp : string)
    (root : node) (w : World) :
  selector_mode_values by_mode to_search (Some tag) = Ok (label, xp) ->
  NthScraper.pick_doc self d = Some root ->
  el_children (here root) <> [] ->
  NthScraper.find_elements self by_mode to_search d tag w
  = match xpath root xp with
    | Raise e => (Ok [], emit_to (EvLog ERROR (label +:+ ": " +:+ str_exn e)) w)
    | Ok v =>
        if xpath_truthy v then
          match xpath_iter v with
          | Raise e =>
              (Ok [], emit_to (EvLog ERROR (label +:+ ": " +:+ str_exn e)) w)
          | Ok items =>
              match comprehension NthScraperElement.__init__ items with
              | Raise e =>
                  (Ok [], emit_to (EvLog ERROR (label +:+ ": " +:+ str_exn e)) w)
              | Ok found => (Ok found, w)
              end
          end
        else (Ok [], w)
    end.
Proof.
  intros Hsel Hpick Hkids. unfold NthScraper.find_elements. run.
  rewrite Hsel, Hpick. unfold el_len.
  destruct (el_children (here root)) as [|kid kids]; [congruence|].
  cbn [length Nat.eqb].
  destruct (xpath root xp) as [v|cause]; [|reflexivity].
  destruct (xpath_truthy v); [|reflexivity].
  destruct (xpath_iter v) as [items|cause]; [|reflexivity].
  destruct (comprehension NthScraperElement.__init__ items); reflexivity.
Qed.

(** X1. On a loaded document, [find_elements] answers a node-set of elements
    with one handle per element, in the order of the node-set, and logs
    nothing; and a non-empty answer only ever comes from such a node-set. *)
Theorem document_find_elements_handles (self : NthScraper.t) (by_mode : By)
    (to_search : string) (d : option node) (tag label xp : string)
    (root : node) (w : World) :
  selector_mode_values by_mode to_search (Some tag) = Ok (label, xp) ->
  NthScraper.pick_doc self d = Some root ->
  el_children (here root) <> [] ->
  (forall ns,
      xpath root xp = Ok (XNodes (map XElement ns)) ->
      NthScraper.find_elements self by_mode to_search d tag w
      = (Ok (map NthScraperElement.Build ns), w))
  /\ (forall found w',
        NthScraper.find_elements self by_mode to_search d tag w = (Ok found, w') ->
        found <> [] ->
        w' = w
        /\ xpath root xp
           = Ok (XNodes (map XElement (map NthScraperElement.element found)))).
Proof.
  intros Hsel Hpick Hkids.
  rewrite (document_find_elements_loaded self by_mode to_search d tag label xp
             root w Hsel Hpick Hkids).
  split.
  - intros ns ->. destruct ns as [|n ns]; [reflexivity|].
    cbn [map xpath_truthy xpath_iter]. rewrite <- map_cons.
    rewrite comprehension_elements. reflexivity.
  - intros found w'.
    destruct (xpath root xp) as [v|cause]; [|intros [= <- _]; congruence].
    destruct (xpath_truthy v); [|intros [= <- _]; congruence].
    destruct v as [items|s|nz|b]; cbn [xpath_iter];
      try (intros [= <- _]; congruence).
    + destruct (comprehension NthScraperElement.__init__ items) as [hs|e] eqn:Hc;
        [|intros [= <- _]; congruence].
      intros [= <- <-] _. split; [reflexivity|].
      rewrite (comprehension_returns items hs Hc) at 1. reflexivity.
    + destruct (comprehension NthScraperElement.__init__ (chars s)) as [hs|cause] eqn:Hc;
        [|intros [= <- _]; congruence].
      apply comprehension_chars in Hc as Hs. subst s. cbn in Hc.
      injection Hc as <-. intros [= <- _]. congruence.
Qed.

(** X2. Once the query is translated, the document-scope [find_elements]
    never raises; it logs at most one line, an error, and whenever it logs it
    returns the empty list. *)
Theorem document_find_elements_logs_only_empty (self : NthScraper.t)
    (by_mode : By) (to_search : string) (d : option node)
    (tag label xp : string) (w : World) :
  selector_mode_values by_mode to_search (Some tag) = Ok (label, xp) ->
  exists found w',
    NthScraper.find_elements self by_mode to_search d tag w = (Ok found, w')
    /\ (w' = w
        \/ (found = [] /\ exists msg, w' = emit_to (EvLog ERROR msg) w)).
Proof.
  intros Hsel. unfold NthScraper.find_elements. run. rewrite Hsel.
  destruct (NthScraper.pick_doc self d) as [root|]; [|eauto 8].
  destruct (el_len (here root) =? 0)%nat; [eauto 8|].
  destruct (xpath root xp) as [v|cause]; [|eauto 8].
  destruct (xpath_truthy v); [|eauto 8].
  destruct (xpath_iter v) as [items|cause]; [|eauto 8].
  destruct (comprehension NthScraperElement.__init__ items); eauto 8.
Qed.

(** X3. The document-scope [find_elements] is all or nothing: when one item
    of the node-set is a string, it returns the empty list, whatever elements
    the node-set holds besides, and logs the refusal of the handle
    constructor. *)
Theorem document_find_elements_all_or_nothing (self : NthScraper.t)
    (by_mode : By) (to_search : string) (d : option node)
    (tag label xp : string) (root : node) (items : list xpath_item)
    (s : string) (w : World) :
  selector_mode_values by_mode to_search (Some tag) = Ok (label, xp) ->
  NthScraper.pick_doc self d = Some root ->
  el_children (here root) <> [] ->
  xpath root xp = Ok (XNodes items) ->
  In (XText s) items ->
  NthScraper.find_elements self by_mode to_search d tag w
  = (Ok [],
     emit_to (EvLog ERROR
                (label +:+ ": Expected an lxml.etree._Element instance.")) w).
Proof.
  intros Hsel Hpick Hkids Hx Hin.
  rewrite (document_find_elements_loaded self by_mode to_search d tag label xp
             root w Hsel Hpick Hkids), Hx.
  destruct items as [|x items]; [contradiction|].
  cbn [xpath_truthy xpath_iter].
  rewrite (comprehension_refuses_text (x :: items) s Hin). reflexivity.
Qed.

End MoreQueries.

Lemma emit_to_changes (ev : event) (w : World) : emit_to ev w <> w.
Proof.
  intros Heq. apply (f_equal (fun x => length (trace x))) in Heq.
  unfold emit_to in Heq. cbn [trace] in Heq.
  rewrite length_app in Heq. cbn [length] in Heq. lia.
Qed.

Section QueryScopes.
Context `{Selector} `{XPathEngine}.

(** The element-scope [find_elements], as a function of what the backend
    answers. *)
Lemma element_find_elements_run (self : NthScraperElement.t) (by_mode : By)
    (to_search tag label xp : string) (w : World) :
  selector_mode_values by_mode to_search (Some tag) = Ok (label, xp) ->
  NthScraperElement.find_elements self by_mode to_search tag w
  = match xpath (NthScraperElement.element self) xp with
    | Raise _ => (Raise (Exn NameError "name 'e' is not defined"), w)
    | Ok v =>
        if xpath_truthy v then
          match xpath_iter v with
          | Raise _ => (Raise (Exn NameError "name 'e' is not defined"), w)
          | Ok items =>
              match comprehension NthScraperElement.__init__ items with
              | Raise _ => (Raise (Exn NameError "name 'e' is not defined"), w)
              | Ok found => (Ok found, w)
              end
          end
        else (Ok [], w)
    end.
Proof.
  intros Hsel. unfold NthScraperElement.find_elements. run. rewrite Hsel.
  destruct (xpath (NthScraperElement.element self) xp) as [v|cause];
    [|reflexivity].
  destruct (xpath_truthy v); [|reflexivity].
  destruct (xpath_iter v) as [items|cause]; [|reflexivity].
  destruct (comprehension NthScraperElement.__init__ items); reflexivity.
Qed.

(** X4. Where the document-scope [find_elements] returns a non-empty list,
    [find_element] with the same arguments returns the first handle of that
    list, and logs nothing. *)
Theorem find_element_is_first_of_find_elements (self : NthScraper.t)
    (by_mode : By) (to_search : string) (d : option node)
    (tag label xp : string) (h : NthScraperElement.t)
    (rest : list NthScraperElement.t) (w w' : World) :
  selector_mode_values by_mode to_search (Some tag) = Ok (label, xp) ->
  NthScraper.find_elements self by_mode to_search d tag w = (Ok (h :: rest), w') ->
  NthScraper.find_element self by_mode to_search d tag w = (Ok h, w).
Proof.
  intros Hsel. unfold NthScraper.find_elements, NthScraper.find_element. run.
  rewrite Hsel.
  destruct (NthScraper.pick_doc self d) as [root|]; [|discriminate].
  destruct (el_len (here root) =? 0)%nat; [discriminate|].
  destruct (xpath root xp) as [v|cause]; [|discriminate].
  destruct (xpath_truthy v); [|discriminate].
  destruct v as [items|s|nz|b]; cbn [xpath_iter xpath_first]; try discriminate.
  - destruct items as [|x items]; [discriminate|].
    cbn [comprehension]. destruct x as [n|s]; [|discriminate].
    cbn [NthScraperElement.__init__].
    destruct (comprehension NthScraperElement.__init__ items); [|discriminate].
    intros [= <- _ _]. reflexivity.
  - destruct s as [|c s]; [discriminate|]. cbn. discriminate.
Qed.

(** X5. Once the query is translated, the document-scope [find_element]
    logs nothing and raises nothing but the not-loaded [ReferenceError] and
    its own [ValueError]: a first match that is a string is reported as not
    found, not as an invalid element. What it returns is a handle on the first
    item of the backend's answer. *)
Theorem document_find_element_outcomes (self : NthScraper.t) (by_mode : By)
    (to_search : string) (d : option node) (tag label xp : string)
    (w : World) :
  selector_mode_values by_mode to_search (Some tag) = Ok (label, xp) ->
  exists r,
    NthScraper.find_element self by_mode to_search d tag w = (r, w)
    /\ match r with
       | Ok h =>
           exists root v,
             NthScraper.pick_doc self d = Some root
             /\ xpath root xp = Ok v
             /\ xpath_first v = Ok (XElement (NthScraperElement.element h))
       | Raise e => e = NthScraper.not_loaded \/ e = NotFoundError_in_document
       end.
Proof.
  intros Hsel. unfold NthScraper.find_element. run. rewrite Hsel.
  destruct (NthScraper.pick_doc self d) as [root|];
    [|eexists; split; [reflexivity | cbn; auto]].
  destruct (el_len (here root) =? 0)%nat;
    [eexists; split; [reflexivity | cbn; auto]|].
  destruct (xpath root xp) as [v|cause] eqn:Hx;
    [|eexists; split; [reflexivity | cbn; auto]].
  destruct (xpath_first v) as [[n|s]|cause] eqn:Hfirst;
    (eexists; split; [reflexivity | cbn; eauto]).
Qed.

(** X6. The alternate document of the document-scope queries is used exactly
    when it has children: a childless one is passed over for the session's own
    tree, as if none had been given; one with children is searched whatever
    the session holds. *)
Theorem alternate_document_needs_children (self other : NthScraper.t)
    (by_mode : By) (to_search : string) (d : option node) (tag : string)
    (w : World) :
  (NthScraper.doc_truthy d = false ->
   NthScraper.find_elements self by_mode to_search d tag w
   = NthScraper.find_elements self by_mode to_search None tag w
   /\ NthScraper.find_element self by_mode to_search d tag w
      = NthScraper.find_element self by_mode to_search None tag w)
  /\ (NthScraper.doc_truthy d = true ->
      NthScraper.find_elements self by_mode to_search d tag w
      = NthScraper.find_elements other by_mode to_search d tag w
      /\ NthScraper.find_element self by_mode to_search d tag w
         = NthScraper.find_element other by_mode to_search d tag w).
Proof.
  unfold NthScraper.find_elements, NthScraper.find_element, NthScraper.pick_doc.
  split; intros ->; cbn [NthScraper.doc_truthy]; split; reflexivity.
Qed.

(** X7. On one node with children the two scopes of [find_elements] part
    only where something fails: they return the same list when nothing is
    logged, and the element scope raises [NameError] exactly where the
    document scope logs an error and returns the empty list. *)
Theorem find_elements_scopes_compared (session : NthScraper.t)
    (by_mode : By) (to_search : string) (d : option node)
    (tag label xp : string) (root : node) (w : World) :
  selector_mode_values by_mode to_search (Some tag) = Ok (label, xp) ->
  NthScraper.pick_doc session d = Some root ->
  el_children (here root) <> [] ->
  (forall found,
      NthScraperElement.find_elements (NthScraperElement.Build root)
        by_mode to_search tag w = (Ok found, w)
      <-> NthScraper.find_elements session by_mode to_search d tag w
          = (Ok found, w))
  /\ (NthScraperElement.find_elements (NthScraperElement.Build root)
        by_mode to_search tag w
      = (Raise (Exn NameError "name 'e' is not defined"), w)
      <-> exists msg,
            NthScraper.find_elements session by_mode to_search d tag w
            = (Ok [], emit_to (EvLog ERROR msg) w)).
Proof.
  intros Hsel Hpick Hkids.
  rewrite (document_find_elements_loaded session by_mode to_search d tag label
             xp root w Hsel Hpick Hkids).
  rewrite (element_find_elements_run (NthScraperElement.Build root) by_mode
             to_search tag label xp w Hsel).
  cbn [NthScraperElement.element].
  assert (forall (found : list NthScraperElement.t) msg,
             (Ok found, emit_to (EvLog ERROR msg) w) <> (Ok found, w)) as Hlog.
  { intros found msg [= Heq]. exact (emit_to_changes _ _ Heq). }
  assert (forall (found : list NthScraperElement.t) msg,
             (Ok found, w) <> (Ok [], emit_to (EvLog ERROR msg) w)) as Hquiet.
  { intros found msg [= _ Heq]. exact (emit_to_changes _ _ (eq_sym Heq)). }
  destruct (xpath root xp) as [v|cause].
  - destruct (xpath_truthy v).
    + destruct (xpath_iter v) as [items|cause].
      * destruct (comprehension NthScraperElement.__init__ items) as [hs|cause].
        -- split; [tauto|]. split; [discriminate|].
           intros [msg Hm]. destruct (Hquiet _ _ Hm).
        -- split; [|split; eauto].
           intros found. split; [discriminate|].
           intros [= <- Heq]. destruct (emit_to_changes _ _ Heq).
      * split; [|split; eauto].
        intros found. split; [discriminate|].
        intros [= <- Heq]. destruct (emit_to_changes _ _ Heq).
    + split; [tauto|]. split; [discriminate|].
      intros [msg Hm]. destruct (Hquiet _ _ Hm).
  - split; [|split; eauto].
    intros found. split; [discriminate|].
    intros [= <- Heq]. destruct (emit_to_changes _ _ Heq).
Qed.

End QueryScopes.

(** ** Text, attributes and parents *)




Lemma occurs_delete_scan (c : Ascii.ascii) (rep : string) (s : string)
    (skip : nat) :
  occurs c s = false -> occurs c (PyStr.delete_scan rep skip s) = false.
Proof.
  revert skip. induction s as [|b s IH]; intros skip; [reflexivity|].
  cbn [occurs]. intros [Hb Hs]%orb_false_iff.
  cbn [PyStr.delete_scan]. destruct skip as [|k]; [|exact (IH k Hs)].
  destruct (PyStr.startswith rep (String b s)); [exact (IH _ Hs)|].
  cbn [occurs]. rewrite Hb. exact (IH 0%nat Hs).
Qed.

Lemma occurs_replace (c : Ascii.ascii) (s rep : string) :
  occurs c s = false -> occurs c (PyStr.replace_with_empty s rep) = false.
Proof.
  intros Hs. unfold PyStr.replace_with_empty.
  destruct rep; [exact Hs | apply occurs_delete_scan, Hs].
Qed.

Lemma occurs_without (c : Ascii.ascii) (s : string) :
  occurs c (PyStr.without c s) = false.
Proof.
  induction s as [|b s IH]; [reflexivity|].
  cbn [PyStr.without]. destruct (bool_decide (c = b)) eqn:Hb; [exact IH|].
  cbn [occurs]. rewrite Hb. exact IH.
Qed.

Lemma occurs_lstrip (c : Ascii.ascii) (s : string) :
  occurs c s = false -> occurs c (PyStr.lstrip s) = false.
Proof.
  induction s as [|b s IH]; [reflexivity|].
  intros Hs. cbn [PyStr.lstrip]. destruct (PyStr.isspace b); [|exact Hs].
  cbn [occurs] in Hs. apply orb_false_iff in Hs as [_ Hs]. exact (IH Hs).
Qed.

Lemma occurs_rstrip (c : Ascii.ascii) (s : string) :
  occurs c s = false -> occurs c (PyStr.rstrip s) = false.
Proof.
  induction s as [|b s IH]; [reflexivity|].
  cbn [occurs]. intros [Hb Hs]%orb_false_iff. specialize (IH Hs).
  cbn [PyStr.rstrip]. destruct (PyStr.rstrip s) as [|d t].
  - destruct (PyStr.isspace b); [reflexivity|].
    cbn [occurs]. rewrite Hb. reflexivity.
  - cbn [occurs] in *. rewrite Hb. exact IH.
Qed.

Lemma occurs_filters (c : Ascii.ascii) (filters : list string) (s : string) :
  occurs c s = false \/ In (String c EmptyString) filters ->
  occurs c (foldl PyStr.replace_with_empty s filters) = false.
Proof.
  revert s. induction filters as [|rep filters IH]; intros s.
  - intros [Hs|[]]. exact Hs.
  - cbn [foldl]. intros [Hs|[->|Hin]]; apply IH.
    + left. apply occurs_replace, Hs.
    + left. rewrite replace_with_empty_char. apply occurs_without.
    + right. exact Hin.
Qed.

Section InnerText.
Context `{Parser} `{AttributeNames}.

(** X9. What [get_attribute("innerText", filters)] returns holds no
    character that is, alone, one of the filters (with the default filters: no
    line feed and no tab), and neither begins nor ends with white space. *)
Theorem innerText_is_clean (self : NthScraperElement.t)
    (filters : list string) :
  exists r,
    NthScraperElement.get_attribute self "innerText" filters = Ok r
    /\ (forall c, In (String c EmptyString) filters -> occurs c r = false)
    /\ (forall c t, r = String c t -> PyStr.isspace c = false)
    /\ (forall c, PyStr.last_char r = Some c -> PyStr.isspace c = false).
Proof.
  eexists. split; [reflexivity|]. split; [|split].
  - intros c Hin. unfold PyStr.strip.
    apply occurs_rstrip, occurs_lstrip, occurs_filters. right. exact Hin.
  - intros c t Hr. exact (strip_head _ _ _ Hr).
  - intros c Hr. exact (strip_last _ _ Hr).
Qed.

End InnerText.

Lemma children_from_reaches (up : list frame) (tg : string)
    (at_ : gmap string string) (txt tl : option string)
    (l1 l2 acc : list element) (c : node) :
  In c (children_from up tg at_ txt tl (rev l1 ++ acc) l2) ->
  In c (children_from up tg at_ txt tl acc (l1 ++ l2)).
Proof.
  revert acc. induction l1 as [|k l1 IH]; intros acc; [exact (fun Hin => Hin)|].
  cbn [rev app children_from In]. rewrite <- app_assoc. cbn [app].
  intros Hin. right. apply IH. exact Hin.
Qed.

(** X10. [get_parent] and the children of an element are inverse to each
    other: every child's parent is the element itself, an element is among the
    children of the parent [get_parent] returns, and [get_parent] is [None]
    exactly on an element nothing encloses. *)
Theorem get_parent_of_children (self : NthScraperElement.t) :
  (forall c,
      In c (children_nodes (NthScraperElement.element self)) ->
      NthScraperElement.get_parent (NthScraperElement.Build c) = Some self)
  /\ (forall p,
        NthScraperElement.get_parent self = Some p ->
        In (NthScraperElement.element self)
           (children_nodes (NthScraperElement.element p)))
  /\ (NthScraperElement.get_parent self = None
      <-> above (NthScraperElement.element self) = []).
Proof.
  destruct self as [n]. unfold NthScraperElement.get_parent.
  cbn [NthScraperElement.element]. split; [|split].
  - intros c Hin. rewrite (children_nodes_parent n c Hin). reflexivity.
  - intros p. destruct n as [e [|[tg at_ txt before after tl] up]];
      unfold getparent; cbn [above here fr_tag fr_attrib fr_text fr_before
                             fr_after fr_tail]; [discriminate|].
    intros [= <-]. cbn [NthScraperElement.element].
    unfold children_nodes. cbn [here above].
    rewrite rev_append_rev.
    apply children_from_reaches. rewrite rev_involutive, app_nil_r.
    cbn [children_from In]. left. reflexivity.
  - destruct n as [e [|f up]]; unfold getparent; cbn [above];
      split; (reflexivity || discriminate).
Qed.

(** ** The requests wrapper, call by call *)

Section MoreTransport.
Context `{Network}.




(** [time.sleep] takes nothing from the random generator, and leaves no
    effect when it raises. *)
Lemma time_sleep_draws (s : Z) (w : World) :
  draws (snd (time_sleep s w)) = draws w.
Proof.
  destruct (sleep_length_accepted_dec s) as [Hyes|Hno].
  - rewrite time_sleep_accepts by exact Hyes. reflexivity.
  - destruct (time_sleep_refuses s w Hno) as (e & -> & _). reflexivity.
Qed.




Lemma request_draws_once (method target : string)
    (kwargs : RequestsWrapper.Kwargs) (self : RequestsWrapper.t) (w : World) :
  draws (snd (snd (RequestsWrapper.request method target kwargs (self, w))))
  = S (draws w).
Proof.
  pose proof (request_run method target kwargs self w) as Hrun.
  cbv zeta in Hrun. rewrite Hrun. clear Hrun.
  match goal with
  | |- context [time_sleep ?s ?w1] =>
      pose proof (time_sleep_draws s w1) as Hdraws;
      destruct (time_sleep s w1) as [[[]|e] w2]
  end; cbn [fst snd draws] in Hdraws; [|exact Hdraws].
  destruct (session_request _ _ _ _ _ _) as [resp|e];
    [destruct (raise_for_status resp)|]; exact Hdraws.
Qed.

(** X13. The fallback throttle is drawn before [sleep_seconds] is looked up:
    every call of [request] takes exactly one value from the random
    generator, also when [sleep_seconds] is passed and when the call is refused. *)
Theorem request_always_draws (method target : string)
    (kwargs : RequestsWrapper.Kwargs) (self : RequestsWrapper.t) (w : World) :
  draws (snd (snd (RequestsWrapper.request method target kwargs (self, w))))
  = S (draws w).
Proof. apply request_draws_once. Qed.





End MoreTransport.

(** ** The session, fetch by fetch *)

Section MoreFetch.
Context `{Parser} `{Network}.





(** X17. A fetch that raises never changes the tree. It leaves the response
    as it was too, unless the transport had returned one: then the response
    held is already that new one, beside the old tree. *)
Theorem failed_fetch_keeps_tree (self self' : NthScraper.t) (target : string)
    (sleep_seconds : option Z) (is_post : bool)
    (kwargs : RequestsWrapper.Kwargs) (w w' : World) (e : exn) :
  NthScraper._get_response target sleep_seconds is_post kwargs (self, w)
  = (Raise e, (self', w')) ->
  NthScraper.doc self' = NthScraper.doc self
  /\ (NthScraper.response self' = NthScraper.response self
      \/ exists resp history hdrs,
           session_request history
             (RequestsWrapper.session (NthScraper.requests_wrapper self))
             (if is_post then "POST" else "GET") target hdrs
             (RequestsWrapper.kw_rest kwargs) = Ok resp
           /\ NthScraper.response self' = Some resp).
Proof.
  pose proof (_get_response_run self target sleep_seconds is_post kwargs w)
    as Hrun.
  destruct (match sleep_seconds with
            | Some s => (s, w)
            | None => _ end) as [seconds w1].
  rewrite Hrun. clear Hrun.
  destruct (RequestsWrapper.call_request _ _ _ _) as [[resp|cause] [rw w2]]
    eqn:Hreq.
  - apply call_request_returns in Hreq as [_ Hreq].
    apply request_returns in Hreq as (history & hdrs & Hsent).
    cbn [RequestsWrapper.kw_rest] in Hsent.
    destruct (PyStr.truthy (content resp)); [|discriminate].
    destruct (fromstring (content resp)) as [root|cause]; [discriminate|].
    intros [= _ <- _]. cbn. split; [reflexivity|].
    right. exists resp, history, hdrs. auto.
  - intros [= _ <- _]. cbn. auto.
Qed.

(** X18. [get_from_local] goes round the wrapper on every path: it leaves the
    session's wrapper, hit counter included, and the random generator as they
    were, and neither sleeps nor sends a request. *)
Theorem get_from_local_bypasses_wrapper (self : NthScraper.t)
    (file_path : string) (w : World) :
  let after := snd (NthScraper.get_from_local file_path (self, w)) in
  NthScraper.requests_wrapper (fst after) = NthScraper.requests_wrapper self
  /\ draws (snd after) = draws w
  /\ exists effects,
       trace (snd after) = trace w ++ effects
       /\ forallb (fun ev => negb (wrapper_event ev)) effects = true.
Proof.
  unfold NthScraper.get_from_local, NthScraper.close_response,
    NthScraper.update, NthScraper.parse_content, NthScraper.local_get,
    requests_session.
  run. cbn [fst snd].
  destruct (local_file_send _ _ _) as [resp|cause]; cbn [fst snd].
  - destruct (PyStr.truthy (content resp)); cbn [fst snd].
    + destruct (fromstring (content resp)); cbn [fst snd];
        (split; [reflexivity|]; split; [reflexivity|]);
        unfold emit_to; cbn [trace]; rewrite <- !app_assoc;
        eexists; (split; [reflexivity|]); reflexivity.
    + split; [reflexivity|]. split; [reflexivity|].
      unfold emit_to. cbn [trace]. rewrite <- !app_assoc.
      eexists. split; [reflexivity|]. reflexivity.
  - split; [reflexivity|]. split; [reflexivity|].
    unfold emit_to. cbn [trace]. rewrite <- !app_assoc.
    eexists. split; [reflexivity|]. reflexivity.
Qed.

(** X19. [get_from_local] does not look at the status: whatever response the
    file adapter hands over is stored and returned, closed, once its body is
    empty or parsed; the tree is then the parse, or none for an empty body,
    and the close is the last of the four effects. *)
Theorem get_from_local_returns (self : NthScraper.t) (file_path : string)
    (w : World) (resp : Response) (d : option node) :
  local_file_send (trace (emit_to EvSessionOpen w))
    {| session_headers := default_session_headers |}
    ("file://" +:+ file_path) = Ok resp ->
  (if PyStr.truthy (content resp)
   then exists root, fromstring (content resp) = Ok root /\ d = Some root
   else d = None) ->
  let shut := {| status_code := status_code resp; reason := reason resp;
                 url := url resp; content := content resp; closed := true |} in
  NthScraper.get_from_local file_path (self, w)
  = (Ok shut,
     ({| NthScraper.requests_wrapper := NthScraper.requests_wrapper self;
         NthScraper.doc := d;
         NthScraper.response := Some shut |},
      {| trace := trace w ++
                  [EvSessionOpen;
                   EvLocalGet ("file://" +:+ file_path);
                   EvLog INFO ("Scraping data from: " +:+ file_path);
                   EvResponseClose (url resp)];
         draws := draws w |})).
Proof.
  intros Hread Hbody shut. subst shut.
  unfold NthScraper.get_from_local, NthScraper.close_response,
    NthScraper.update, NthScraper.parse_content, NthScraper.local_get,
    requests_session.
  run. cbn [fst snd]. rewrite Hread. cbn [fst snd].
  destruct (PyStr.truthy (content resp)).
  - destruct Hbody as (root & -> & ->). cbn [fst snd].
    unfold emit_to, NthScraper.set_response, NthScraper.set_doc.
    cbn [trace draws NthScraper.requests_wrapper NthScraper.doc
         NthScraper.response].
    rewrite <- !app_assoc. reflexivity.
  - subst d. cbn [fst snd].
    unfold emit_to, NthScraper.set_response, NthScraper.set_doc.
    cbn [trace draws NthScraper.requests_wrapper NthScraper.doc
         NthScraper.response].
    rewrite <- !app_assoc. reflexivity.
Qed.

End MoreFetch.

Section FetchEffects.
Context `{Parser} `{Network}.



End FetchEffects.

(** ** The further properties on the samples *)

Lemma document_find_elements_handles_witness :
  @NthScraper.find_elements Demo.selector Demo.engine
     Demo.loaded Demo.XPATH "//p" None "node()" Demo.quiet
  = (Ok [NthScraperElement.Build Demo.p_node], Demo.quiet).
Proof.
  apply (proj1 (@document_find_elements_handles Demo.selector Demo.engine
                  Demo.loaded Demo.XPATH "//p" None "node()" "Error in XPATH"
                  "//p" Demo.html_node Demo.quiet eq_refl eq_refl
                  ltac:(discriminate))
               [Demo.p_node]).
  reflexivity.
Defined.

Lemma document_find_elements_logs_only_empty_witness :
  exists found w',
    @NthScraper.find_elements Demo.selector Demo.engine
       Demo.loaded Demo.XPATH "//[" None "node()" Demo.quiet = (Ok found, w')
    /\ (w' = Demo.quiet
        \/ (found = [] /\ exists msg, w' = emit_to (EvLog ERROR msg) Demo.quiet)).
Proof.
  exact (@document_find_elements_logs_only_empty Demo.selector Demo.engine
           Demo.loaded Demo.XPATH "//[" None "node()" "Error in XPATH" "//["
           Demo.quiet eq_refl).
Defined.

Lemma document_find_elements_all_or_nothing_witness :
  @NthScraper.find_elements Demo.selector Samples.engine
     Demo.loaded Demo.XPATH "//p | //p/text()" None "node()" Demo.quiet
  = (Ok [],
     emit_to (EvLog ERROR
                "Error in XPATH: Expected an lxml.etree._Element instance.")
             Demo.quiet).
Proof.
  apply (@document_find_elements_all_or_nothing Demo.selector Samples.engine
           Demo.loaded Demo.XPATH "//p | //p/text()" None "node()"
           "Error in XPATH" "//p | //p/text()" Demo.html_node
           Samples.mixed_items "Hi" Demo.quiet).
  - reflexivity.
  - reflexivity.
  - discriminate.
  - reflexivity.
  - right. left. reflexivity.
Defined.

Lemma find_element_is_first_of_find_elements_witness :
  @NthScraper.find_element Demo.selector Demo.engine
     Demo.loaded Demo.ID "x" None "p" Demo.quiet
  = (Ok (NthScraperElement.Build Demo.p_node), Demo.quiet).
Proof.
  apply (@find_element_is_first_of_find_elements Demo.selector Demo.engine
           Demo.loaded Demo.ID "x" None "p" "Error in ID" "//p[@id='x']"
           (NthScraperElement.Build Demo.p_node) [] Demo.quiet Demo.quiet).
  - reflexivity.
  - reflexivity.
Defined.

Lemma document_find_element_outcomes_witness :
  exists r,
    @NthScraper.find_element Demo.selector Demo.engine
       Demo.loaded Demo.XPATH "//p/text()" None "node()" Demo.quiet
    = (r, Demo.quiet)
    /\ match r with
       | Ok h =>
           exists root v,
             NthScraper.pick_doc Demo.loaded None = Some root
             /\ Demo.evaluate root "//p/text()" = Ok v
             /\ xpath_first v = Ok (XElement (NthScraperElement.element h))
       | Raise e => e = NthScraper.not_loaded \/ e = NotFoundError_in_document
       end.
Proof.
  exact (@document_find_element_outcomes Demo.selector Demo.engine
           Demo.loaded Demo.XPATH "//p/text()" None "node()" "Error in XPATH"
           "//p/text()" Demo.quiet eq_refl).
Defined.

Lemma alternate_document_needs_children_witness :
  @NthScraper.find_elements Demo.selector Demo.engine
     Demo.loaded Demo.XPATH "//p" (Some Demo.lone_p) "node()" Demo.quiet
  = @NthScraper.find_elements Demo.selector Demo.engine
      Demo.loaded Demo.XPATH "//p" None "node()" Demo.quiet
  /\ @NthScraper.find_elements Demo.selector Demo.engine
       Demo.fresh Demo.XPATH "//p" (Some Demo.html_node) "node()" Demo.quiet
     = @NthScraper.find_elements Demo.selector Demo.engine
         Demo.loaded Demo.XPATH "//p" (Some Demo.html_node) "node()" Demo.quiet.
Proof.
  split.
  - exact (proj1 (proj1 (@alternate_document_needs_children Demo.selector
                           Demo.engine Demo.loaded Demo.loaded Demo.XPATH "//p"
                           (Some Demo.lone_p) "node()" Demo.quiet)
                        eq_refl)).
  - exact (proj1 (proj2 (@alternate_document_needs_children Demo.selector
                           Demo.engine Demo.fresh Demo.loaded Demo.XPATH "//p"
                           (Some Demo.html_node) "node()" Demo.quiet)
                        eq_refl)).
Defined.

Lemma find_elements_scopes_compared_witness :
  @NthScraperElement.find_elements Demo.selector Demo.engine
     (NthScraperElement.Build Demo.html_node) Demo.XPATH "count(//p)" "node()"
     Demo.quiet
  = (Raise (Exn NameError "name 'e' is not defined"), Demo.quiet).
Proof.
  apply (proj2 (@find_elements_scopes_compared Demo.selector Demo.engine
                  Demo.loaded Demo.XPATH "count(//p)" None "node()"
                  "Error in XPATH" "count(//p)" Demo.html_node Demo.quiet
                  eq_refl eq_refl ltac:(discriminate))).
  exists "Error in XPATH: 'float' object is not iterable". reflexivity.
Defined.




Lemma failed_fetch_keeps_tree_witness :
  exists self' w',
    @NthScraper._get_response Demo.parser Samples.blank_site
       "https://example.org/" (Some 0) false RequestsWrapper.no_kwargs
       (Demo.loaded, Demo.quiet)
    = (Raise Demo.document_is_empty, (self', w'))
    /\ NthScraper.doc self' = Some Demo.html_node
    /\ NthScraper.response self'
       = Some (Demo.respond 200 "OK" "https://example.org/" " ").
Proof.
  eexists _, _. split; [vm_compute; reflexivity|].
  match goal with
  | |- NthScraper.doc ?s = _ /\ _ =>
      destruct (@failed_fetch_keeps_tree Demo.parser Samples.blank_site
                  Demo.loaded s "https://example.org/" (Some 0) false
                  RequestsWrapper.no_kwargs Demo.quiet _
                  Demo.document_is_empty
                  ltac:(vm_compute; reflexivity)) as (Hdoc & _)
  end.
  split; [exact Hdoc | reflexivity].
Defined.

Lemma get_from_local_returns_witness :
  fst (@NthScraper.get_from_local Demo.parser Demo.network "/srv/page.html"
         (Demo.fresh, Demo.quiet))
  = Ok {| status_code := 200; reason := "OK"; url := "file:///srv/page.html";
          content := Demo.page_bytes; closed := true |}.
Proof.
  rewrite (@get_from_local_returns Demo.parser Demo.network Demo.fresh
             "/srv/page.html" Demo.quiet
             (Demo.respond 200 "OK" "file:///srv/page.html" Demo.page_bytes)
             (Some Demo.html_node) eq_refl
             (ex_intro _ Demo.html_node (conj eq_refl eq_refl))).
  reflexivity.
Defined.


(** A throttle of [10**10] seconds and a keyword [method] both stop [get]
    before the request: nothing is counted and nothing is sent. *)
Example get_stopped_before_request :
  let long :=
    @RequestsWrapper.get Demo.network "https://example.org/"
      Demo.long_throttle (@RequestsWrapper.__init__ Demo.network ∅, Demo.quiet) in
  let clash :=
    @perform Demo.network (CallGet "https://example.org/" Demo.method_keyword)
      (@RequestsWrapper.__init__ Demo.network ∅, Demo.quiet) in
  fst long
  = Raise (Exn OverflowError "timestamp too large to convert to C _PyTime_t")
  /\ RequestsWrapper.get_hit_count (fst (snd long)) = 0
  /\ trace (snd (snd long)) = []
  /\ fst clash
     = Raise (Exn TypeError
                "RequestsWrapper.request() got multiple values for argument 'method'")
  /\ RequestsWrapper.get_hit_count (fst (snd clash)) = 0
  /\ trace (snd (snd clash)) = [].
Proof. vm_compute. repeat split. Qed.
